(** * Monte-Carlo expected-return estimation: [simulation_with_jd.py]

    A shallow embedding of the two functions that make up the numerical core
    of the script, [annualize_returns] and
    [simulate_asset_class_returns_jsu], together with the properties the
    design document states about them.

    - numpy's [float64] is Rocq's primitive binary64 [float];
    - a one-column DataFrame (a simulated path, a historical column) is a
      [list float], the input table an association list from column label
      to column, kept in column order;
    - the process-wide numpy random state and the calls made to scipy are
      threaded explicitly through a state-and-exception monad;
    - scipy, numpy's reductions and the C library's [pow] are an interface
      ([Library]); the program is verified against every implementation. *)

From Stdlib Require Import List String ZArith Bool Lia.
From Stdlib Require Import Floats.PrimFloat Floats.SpecFloat Floats.FloatOps Floats.FloatAxioms.
From Stdlib Require Import Numbers.Cyclic.Int63.Uint63.
Import ListNotations.

Local Open Scope string_scope.
Local Open Scope list_scope.
Set Warnings "-inexact-float".

(** ** Python exceptions *)

Inductive exception : Type :=
| ValueError (msg : string)
| ZeroDivisionError
| KeyError (key : string)
| LibraryError (origin : string).

(** The outcome of evaluating a Python expression: an exception or a value. *)
Definition result (A : Type) : Type := (exception + A)%type.

Definition raise {A : Type} (e : exception) : result A := inl e.
Definition value {A : Type} (a : A) : result A := inr a.

(** ** float64 arithmetic *)

Module Float64.

(** [float(n)] for a Python integer [n]; exact below [2^53]. *)
Definition of_Z (n : Z) : float :=
  if (n <? 0)%Z then PrimFloat.opp (PrimFloat.of_uint63 (Uint63.of_Z (- n)))
  else PrimFloat.of_uint63 (Uint63.of_Z n).

Definition two52 : float := 0x1p52%float.

(** [np.rint]: round to the nearest integer, ties to even, keeping the
    sign (also of a zero); a NaN, an infinity and every value of
    magnitude [2^52] or more is returned as it is. *)
Definition rint (x : float) : float :=
  let a := PrimFloat.abs x in
  if PrimFloat.ltb a two52 then
    let r := PrimFloat.sub (PrimFloat.add a two52) two52 in
    if PrimFloat.get_sign x then PrimFloat.opp r else r
  else x.

(** [np.round(x, 2)]: scale by [10**2], [rint], scale back. *)
Definition round2 (x : float) : float :=
  PrimFloat.div (rint (PrimFloat.mul x 100%float)) 100%float.

(** [Series.dropna()]. *)
Definition dropna (xs : list float) : list float :=
  filter (fun x => negb (PrimFloat.is_nan x)) xs.

(** [(...).prod()] of one column: pandas' default [skipna=True] replaces a
    NaN by the neutral element, and the reduction multiplies from the
    first row to the last. *)
Definition prod (xs : list float) : float :=
  fold_left (fun acc x => PrimFloat.mul acc (if PrimFloat.is_nan x then 1%float else x))
            xs 1%float.

End Float64.

(** ** The libraries the script calls *)

(** The four Johnson SU parameters, in the order [johnsonsu.fit] returns
    them and the script unpacks them. *)
Record Params : Type := mkParams {
  gamma : float;
  delta : float;
  xi : float;
  lambda_ : float
}.

(** What the script takes from scipy, numpy and the C library.
    [np_random_seed] builds the state of numpy's global generator from a
    seed (numpy refuses a seed outside its range); [johnsonsu_fit] is a
    function of the sample alone; [johnsonsu_rvs] reads and advances the
    global generator; [float_pow] is the [**] of two float64 values;
    [np_mean] is [np.mean] of a list of scalars. *)
Class Library : Type := {
  RandomState : Type;
  np_random_seed : Z -> result RandomState;
  johnsonsu_fit : list float -> result Params;
  johnsonsu_rvs : Params -> Z -> RandomState -> result (list float) * RandomState;
  float_pow : float -> float -> float;
  np_mean : list float -> float
}.

(** A call into scipy, as a test double would record it. *)
Inductive call : Type :=
| CallFit (data : list float)
| CallRvs (p : Params) (size : Z).

(** The input DataFrame and the output DataFrame (its single column
    ['Expected Return']), both in index order. *)
Definition PeriodReturnTable : Type := list (string * list float).
Definition ExpectedReturnTable : Type := list (string * float).

Definition columns (returns : PeriodReturnTable) : list string := map fst returns.

(** [returns[asset]] on a table whose column labels are distinct: the
    column under that label. (On a repeated label pandas hands back the
    frame of all the columns that carry it; the statements that depend on
    which data is looked up assume distinct labels.) *)
Fixpoint getitem (returns : PeriodReturnTable) (asset : string) : result (list float) :=
  match returns with
  | [] => raise (KeyError asset)
  | (label, column) :: rest =>
      if String.eqb label asset then value column else getitem rest asset
  end.

(** [pd.DataFrame(index=labels, columns=['Expected Return'])]: every cell
    starts as NaN. *)
Definition empty_frame (labels : list string) : ExpectedReturnTable :=
  map (fun label => (label, PrimFloat.nan)) labels.

(** [frame.loc[asset, 'Expected Return'] = v]: every row labelled [asset]
    is overwritten; a label the index lacks is appended. *)
Definition loc_set (frame : ExpectedReturnTable) (asset : string) (v : float)
  : ExpectedReturnTable :=
  if existsb (fun row => String.eqb (fst row) asset) frame
  then map (fun row => if String.eqb (fst row) asset then (fst row, v) else row) frame
  else frame ++ [(asset, v)].

(** Lines 219-227: the periods per year of a frequency code. *)
Definition periods_per_year (frequency : string) : option Z :=
  if String.eqb frequency "M" then Some 12%Z
  else if String.eqb frequency "D" then Some 252%Z
  else if String.eqb frequency "Q" then Some 4%Z
  else None.

Definition unsupported_frequency : exception :=
  ValueError "Unsupported frequency. Please use 'M', 'D', or 'Q'.".

Section Program.

Context {L : Library}.

(** *** [annualize_returns] (lines 201-237), on a one-column frame *)
Definition annualize_returns (returns : list float) (frequency : string)
  : result float :=
  match periods_per_year frequency with
  | None => raise unsupported_frequency
  | Some ppy =>
      let compounded_growth :=
        Float64.prod (map (fun r => PrimFloat.add r 1%float) returns) in
      let n_periods := Z.of_nat (List.length returns) in
      if (n_periods =? 0)%Z then raise ZeroDivisionError
      else
        let annualized_returns :=
          PrimFloat.sub
            (float_pow compounded_growth
               (PrimFloat.div (Float64.of_Z ppy) (Float64.of_Z n_periods)))
            1%float in
        value (Float64.round2 (PrimFloat.mul annualized_returns 100%float))
  end.

(** *** The interpreter state *)

(** numpy's global generator, and the scipy calls made so far (oldest
    first). *)
Record World : Type := mkWorld {
  rng : RandomState;
  calls : list call
}.

Definition M (A : Type) : Type := World -> result A * World.

Definition ret {A : Type} (a : A) : M A := fun w => (value a, w).

Definition bind {A B : Type} (m : M A) (k : A -> M B) : M B :=
  fun w =>
    match m w with
    | (inl e, w') => (inl e, w')
    | (inr a, w') => k a w'
    end.

Definition lift {A : Type} (r : result A) : M A := fun w => (r, w).

Definition record (c : call) (w : World) : World :=
  {| rng := rng w; calls := calls w ++ [c] |}.

(** [np.random.seed(s)]. *)
Definition seed (s : Z) : M unit :=
  fun w =>
    match np_random_seed s with
    | inl e => (inl e, w)
    | inr g => (value tt, {| rng := g; calls := calls w |})
    end.

(** [stats.johnsonsu.fit(data)], unpacked into four parameters. *)
Definition fit (data : list float) : M Params :=
  fun w => (johnsonsu_fit data, record (CallFit data) w).

(** [stats.johnsonsu.rvs(gamma, delta, loc=xi, scale=lambda_, size=size)]. *)
Definition rvs (p : Params) (size : Z) : M (list float) :=
  fun w =>
    let (r, g) := johnsonsu_rvs p size (rng w) in
    (r, {| rng := g; calls := calls w ++ [CallRvs p size] |}).

End Program.

Declare Scope monad_scope.
Delimit Scope monad_scope with monad.
Notation "x <- m ;; k" := (bind m (fun x => k))
  (at level 61, m at next level, right associativity) : monad_scope.
Notation "m ;;; k" := (bind m (fun _ => k))
  (at level 61, right associativity) : monad_scope.
Local Open Scope monad_scope.

Section Orchestrator.

Context {L : Library}.

(** Lines 275-286: the loop [for _ in range(k)], appending to
    [avg_annualized_returns]. *)
Fixpoint run_simulations (k : nat) (p : Params) (num_years : Z)
    (frequency : string) (avg_annualized_returns : list float)
  : M (list float) :=
  match k with
  | O => ret avg_annualized_returns
  | S k' =>
      sampled_returns <- rvs p (num_years * 12) ;;
      avg_annualized_return <- lift (annualize_returns sampled_returns frequency) ;;
      run_simulations k' p num_years frequency
        (avg_annualized_returns ++ [avg_annualized_return])
  end.

(** Lines 265-289: the body of the loop over asset classes. *)
Definition simulate_asset (returns : PeriodReturnTable)
    (num_simulations num_years : Z) (frequency : string)
    (expected_returns : ExpectedReturnTable) (asset : string)
  : M ExpectedReturnTable :=
  column <- lift (getitem returns asset) ;;
  let ac_returns := Float64.dropna column in
  p <- fit ac_returns ;;
  avg_annualized_returns <-
    run_simulations (Z.to_nat num_simulations) p num_years frequency [] ;;
  ret (loc_set expected_returns asset
         (Float64.round2 (np_mean avg_annualized_returns))).

(** Line 264: [for asset in returns.columns]. *)
Fixpoint for_each_asset (assets : list string) (returns : PeriodReturnTable)
    (num_simulations num_years : Z) (frequency : string)
    (expected_returns : ExpectedReturnTable)
  : M ExpectedReturnTable :=
  match assets with
  | [] => ret expected_returns
  | asset :: rest =>
      expected_returns' <-
        simulate_asset returns num_simulations num_years frequency
          expected_returns asset ;;
      for_each_asset rest returns num_simulations num_years frequency
        expected_returns'
  end.

(** *** [simulate_asset_class_returns_jsu] (lines 241-291) *)
Definition simulate_asset_class_returns_jsu (returns : PeriodReturnTable)
    (num_simulations num_years : Z) (frequency : string)
    (random_seed : option Z)
  : M ExpectedReturnTable :=
  match random_seed with
  | Some s => seed s
  | None => ret tt
  end ;;;
  for_each_asset (columns returns) returns num_simulations num_years
    frequency (empty_frame (columns returns)).

End Orchestrator.

(** ** Test doubles

    A small deterministic implementation of the library interface, used to
    run the program on concrete inputs. Each double follows the real library
    on the inputs it is run on: numpy's seed range, scipy's refusal of
    non-finite data, negative sizes and non-positive scales, and the exact
    cases of C's [pow]. *)

Module Mock.

Definition seed_state (s : Z) : result Z :=
  if ((0 <=? s) && (s <? 2 ^ 32))%Z then value s
  else raise (ValueError "Seed must be between 0 and 2**32 - 1").

(** [rv_continuous.fit] rejects data that is not finite; the parameters
    returned otherwise are a fixed stand-in for the optimiser's. *)
Definition fit_params (data : list float) : result Params :=
  if existsb PrimFloat.is_infinity data
  then raise (ValueError "The data contains non-finite values.")
  else value (mkParams 0 1 0 1).

(** A path whose periods all carry the same return, [(state mod 5)] per
    cent; the state advances by one per call. *)
Definition draw_path (p : Params) (size : Z) (state : Z)
  : result (list float) * Z :=
  if (size <? 0)%Z
  then (raise (ValueError "negative dimensions are not allowed"), state)
  else if PrimFloat.leb (lambda_ p) 0
  then (raise (ValueError "Domain error in arguments."), state)
  else (value (repeat (PrimFloat.div (Float64.of_Z (state mod 5)) 100)
                 (Z.to_nat size)),
        (state + 1)%Z).

(** C's [pow] where its value is exact: a base of one, an exponent of
    one and an exponent of zero. NaN stands for every other case, which
    no run below reaches. *)
Definition pow (x y : float) : float :=
  if PrimFloat.eqb x 1 then 1%float
  else if PrimFloat.eqb y 1 then x
  else if PrimFloat.eqb y 0 then 1%float
  else PrimFloat.nan.

(** [np.mean]: NaN for an empty list, else the sum over the count. *)
Definition mean (xs : list float) : float :=
  match xs with
  | [] => PrimFloat.nan
  | _ => PrimFloat.div (fold_left PrimFloat.add xs 0%float)
           (Float64.of_Z (Z.of_nat (List.length xs)))
  end.

Definition library : Library := {|
  RandomState := Z;
  np_random_seed := seed_state;
  johnsonsu_fit := fit_params;
  johnsonsu_rvs := draw_path;
  float_pow := pow;
  np_mean := mean
|}.

(** A run from a fresh interpreter whose generator is in state [g]. *)
Definition start (g : Z) : @World library := @mkWorld library g [].

End Mock.

(** ** What the design document says, in the program's terms *)

Section Specification.

Context {L : Library}.

(** The growth factor of one period, (1 + period return). *)
Definition growth_factor (r : float) : float := PrimFloat.add r 1%float.

(** Section 4.3 of the design document: the product over all periods of
    the growth factors, raised to periods-per-year over the number of
    periods, minus one. *)
Definition compounded_annualization (path : list float) (ppy : Z) : float :=
  PrimFloat.sub
    (float_pow
       (fold_left (fun growth r => PrimFloat.mul growth (growth_factor r)) path 1%float)
       (PrimFloat.div (Float64.of_Z ppy) (Float64.of_Z (Z.of_nat (List.length path)))))
    1%float.

(** A value that left [np.round(_, 2)]. *)
Definition rounded2 (v : float) : Prop := exists x, v = Float64.round2 x.

(** A rate the simulation loop recorded: the annualizer's value on some
    path, hence a rounded one. *)
Definition recorded_rate (frequency : string) (r : float) : Prop :=
  (exists path, annualize_returns path frequency = inr r) /\ rounded2 r.

(** The generator state the asset loop starts from. *)
Definition generator_after (random_seed : option Z) (w : World)
  : result RandomState :=
  match random_seed with
  | Some s => np_random_seed s
  | None => value (rng w)
  end.

(** A computation whose outcome and final generator state depend on the
    world only through the generator: the call log is write-only. *)
Definition oblivious {A : Type} (m : M A) : Prop :=
  forall w1 w2, rng w1 = rng w2 ->
    fst (m w1) = fst (m w2) /\ rng (snd (m w1)) = rng (snd (m w2)).

(** The sampler calls of a log all ask for [size] draws. *)
Definition rvs_sizes (size : Z) (log : list call) : Prop :=
  Forall (fun c => match c with CallRvs _ n => n = size | CallFit _ => True end) log.

End Specification.

(** ** What a run does to the libraries, in the program's terms *)

Section RunSpecification.

Context {L : Library}.

(** The scipy calls one asset class costs in a run that gets through it:
    one fit on the column without its NaN entries, then one draw of
    [num_years * 12] variates per simulation, all with the fitted
    parameters. *)
Definition asset_calls (returns : PeriodReturnTable) (num_simulations num_years : Z)
    (asset : string) : list call :=
  match getitem returns asset with
  | inr column =>
      match johnsonsu_fit (Float64.dropna column) with
      | inr p =>
          CallFit (Float64.dropna column)
          :: repeat (CallRvs p (num_years * 12)) (Z.to_nat num_simulations)
      | inl _ => []
      end
  | inl _ => []
  end.

(** The two kinds of scipy call the orchestrator issues for a horizon of
    [num_years]: a fit on some column without its NaN entries, and a draw
    of [num_years * 12] variates. *)
Definition issued_by_orchestrator (num_years : Z) (c : call) : Prop :=
  (exists column, c = CallFit (Float64.dropna column))
  \/ (exists p, c = CallRvs p (num_years * 12)).

(** No sample handed to the fitter holds a NaN. *)
Definition fits_without_nan (log : list call) : Prop :=
  Forall (fun c => match c with
                   | CallFit data => Forall (fun x => PrimFloat.is_nan x = false) data
                   | CallRvs _ _ => True
                   end) log.

(** Where an exception that leaves the orchestrator can come from: numpy's
    seeding, scipy's fit, scipy's sampler, or the annualizer's two raises. *)
Definition raised_by_library_or_annualizer (e : exception) : Prop :=
  (exists s, np_random_seed s = inl e)
  \/ (exists data, johnsonsu_fit data = inl e)
  \/ (exists p size g, fst (johnsonsu_rvs p size g) = inl e)
  \/ e = unsupported_frequency
  \/ e = ZeroDivisionError.

(** An entry of the output table: the rounded mean of [num_simulations]
    rates, each returned by the annualizer. *)
Definition rounded_mean_of_rates (num_simulations : Z) (frequency : string) (v : float)
  : Prop :=
  exists rates,
    List.length rates = Z.to_nat num_simulations
    /\ Forall (recorded_rate frequency) rates
    /\ v = Float64.round2 (np_mean rates).

End RunSpecification.

(** ** The grid layouts of the plotting helpers

    [plot_return_histograms] (lines 38-86) and [plot_qq_grid] (lines
    137-172) draw one chart per asset class. What is modelled is which
    axes they create, address and hide; titles, labels, figure sizes and
    [plt.show] are left out. *)

Module Plots.

Inductive plot_exception : Type :=
| SubplotsValueError   (* plt.subplots with a row or column count of zero *)
| IndexError.          (* an axis outside the array of axes *)

(** [sns.histplot(..., kde=True)] or [sns.kdeplot]. *)
Inductive chart : Type := Histogram | Density.

Inductive plot_call : Type :=
| Figure
| Subplots (n_rows n_cols : nat)
| Draw (kind : chart) (asset : string) (cell : option (nat * nat))
| AxisOff (j : nat)
| ProbPlot (asset : string) (j : nat)
| DelAxes (j : nat).

(** [int(np.ceil(n / d))]; the float quotient is exact for a count below
    [2^53] and a divisor of 4. *)
Definition ceil_div (n d : nat) : nat :=
  n / d + (if (n mod d =? 0)%nat then 0 else 1).

(** [plt.subplots(n_rows, n_cols, ...)] refuses an empty grid. *)
Definition subplots (n_rows n_cols : nat) : plot_exception + unit :=
  if ((n_rows =? 0) || (n_cols =? 0))%nat then inl SubplotsValueError else inr tt.

(** [axs[row, col]] on the [n_rows] by [n_cols] array ([squeeze=False]). *)
Definition cell_at (n_rows n_cols row col : nat) : plot_exception + (nat * nat) :=
  if ((row <? n_rows) && (col <? n_cols))%nat then inr (row, col) else inl IndexError.

(** [axes[j]] on the flattened array of [len] axes. *)
Definition axis_at (len j : nat) : plot_exception + nat :=
  if (j <? len)%nat then inr j else inl IndexError.

(** Lines 69-78: [for i, asset_name in enumerate(asset_names)], from
    index [i] on, with [row, col = divmod(i, n_cols)]. *)
Fixpoint draw_cells (kind : chart) (assets : list string) (i n_rows n_cols : nat)
  : plot_exception + list plot_call :=
  match assets with
  | [] => inr []
  | asset :: rest =>
      match cell_at n_rows n_cols (i / n_cols) (i mod n_cols) with
      | inl e => inl e
      | inr cell =>
          match draw_cells kind rest (S i) n_rows n_cols with
          | inl e => inl e
          | inr drawn => inr (Draw kind asset (Some cell) :: drawn)
          end
      end
  end.

(** [plot_return_histograms(returns, stacked, bars)], on the column labels
    of [returns]. After the loop [i] is the last index, so the cells
    hidden are those from [n_assets] on. *)
Definition plot_return_histograms (assets : list string) (stacked bars : bool)
  : plot_exception + list plot_call :=
  let kind := if bars then Histogram else Density in
  if stacked then inr (Figure :: map (fun asset => Draw kind asset None) assets)
  else
    let n_assets := List.length assets in
    let n_rows := ceil_div n_assets 4 in
    let n_cols := Nat.min n_assets 4 in
    match subplots n_rows n_cols with
    | inl e => inl e
    | inr _ =>
        match draw_cells kind assets 0 n_rows n_cols with
        | inl e => inl e
        | inr drawn =>
            inr (Subplots n_rows n_cols
                 :: drawn ++ map AxisOff (seq n_assets (n_rows * n_cols - n_assets)))
        end
    end.

(** Lines 163-165: [for i, asset in enumerate(returns.columns)], plotting
    on [axes[i]]. *)
Fixpoint probplots (assets : list string) (i len : nat)
  : plot_exception + list plot_call :=
  match assets with
  | [] => inr []
  | asset :: rest =>
      match axis_at len i with
      | inl e => inl e
      | inr j =>
          match probplots rest (S i) len with
          | inl e => inl e
          | inr drawn => inr (ProbPlot asset j :: drawn)
          end
      end
  end.

(** [plot_qq_grid(returns)], on the column labels of [returns]. *)
Definition plot_qq_grid (assets : list string) : plot_exception + list plot_call :=
  let num_assets := List.length assets in
  let num_rows := (num_assets + 3) / 4 in
  match subplots num_rows 4 with
  | inl e => inl e
  | inr _ =>
      let len := num_rows * 4 in
      match probplots assets 0 len with
      | inl e => inl e
      | inr drawn =>
          inr (Subplots num_rows 4
               :: drawn ++ map DelAxes (seq num_assets (len - num_assets)))
      end
  end.

(** The charts of a grid, cell by cell in enumeration order. *)
Definition cells_in_order (kind : chart) (assets : list string) (n_cols : nat)
  : list plot_call :=
  map (fun ia => Draw kind (snd ia) (Some (fst ia / n_cols, fst ia mod n_cols)))
      (combine (seq 0 (List.length assets)) assets).

Definition probplots_in_order (assets : list string) : list plot_call :=
  map (fun ia => ProbPlot (snd ia) (fst ia)) (combine (seq 0 (List.length assets)) assets).

(** The position, in the flattened (row-major) array of axes of a grid
    with [n_cols] columns, of the axis a call addresses. *)
Definition flat_position (n_cols : nat) (c : plot_call) : option nat :=
  match c with
  | Draw _ _ (Some (row, col)) => Some (row * n_cols + col)
  | AxisOff j | ProbPlot _ j | DelAxes j => Some j
  | _ => None
  end.

End Plots.

(** ** Proofs *)

(** [np.rint] rounds halves to the even neighbour and keeps the sign of a
    zero; [np.round(_, 2)] follows it. *)
Example rint_half_even :
  map Float64.rint [0.5; 1.5; 2.5; (-0.5); (-1.5); 1234.5678; (-0.2)]%float
  = [0; 2; 2; (-0); (-2); 1235; (-0)]%float.
Proof. vm_compute. reflexivity. Qed.

Example round2_examples :
  map Float64.round2 [12.3456; (-100); 0.125; 0.135; nan; infinity]%float
  = [12.35; (-100); 0.12; 0.14; nan; infinity]%float.
Proof. vm_compute. reflexivity. Qed.

Section MonadFacts.

Context {L : Library}.

Lemma oblivious_ret {A : Type} (a : A) : oblivious (ret a).
Proof. intros w1 w2 H. simpl. auto. Qed.

Lemma oblivious_lift {A : Type} (r : result A) : oblivious (lift r).
Proof. intros w1 w2 H. simpl. auto. Qed.

Lemma oblivious_bind {A B : Type} (m : M A) (k : A -> M B) :
  oblivious m -> (forall a, oblivious (k a)) -> oblivious (bind m k).
Proof.
  intros Hm Hk w1 w2 H. unfold bind.
  destruct (Hm w1 w2 H) as [Hr Hg].
  destruct (m w1) as [[e1|a1] w1'], (m w2) as [[e2|a2] w2']; simpl in *;
    try discriminate.
  - split; [congruence | assumption].
  - injection Hr as ->. apply Hk. assumption.
Qed.

Lemma oblivious_fit (data : list float) : oblivious (fit data).
Proof. intros w1 w2 H. unfold fit. simpl. auto. Qed.

Lemma oblivious_rvs (p : Params) (size : Z) : oblivious (rvs p size).
Proof.
  intros w1 w2 H. unfold rvs. rewrite H.
  destruct (johnsonsu_rvs p size (rng w2)) as [r g]. simpl. auto.
Qed.

Lemma oblivious_run_simulations (k : nat) p num_years frequency :
  forall acc, oblivious (run_simulations k p num_years frequency acc).
Proof.
  induction k as [|k IH]; intros acc; simpl.
  - apply oblivious_ret.
  - apply oblivious_bind; [apply oblivious_rvs | intros path].
    apply oblivious_bind; [apply oblivious_lift | intros rate]. apply IH.
Qed.

Lemma oblivious_simulate_asset returns n y frequency expected asset :
  oblivious (simulate_asset returns n y frequency expected asset).
Proof.
  unfold simulate_asset.
  apply oblivious_bind; [apply oblivious_lift | intros column].
  apply oblivious_bind; [apply oblivious_fit | intros p].
  apply oblivious_bind; [apply oblivious_run_simulations | intros rates].
  apply oblivious_ret.
Qed.

Lemma oblivious_for_each_asset assets returns n y frequency :
  forall expected, oblivious (for_each_asset assets returns n y frequency expected).
Proof.
  induction assets as [|asset rest IH]; intros expected; simpl.
  - apply oblivious_ret.
  - apply oblivious_bind; [apply oblivious_simulate_asset | apply IH].
Qed.

(** With a seed, the run ignores the state the generator was in. *)
Lemma seeded_run_ignores_ambient_state returns n y frequency s (w1 w2 : World) :
  fst (simulate_asset_class_returns_jsu returns n y frequency (Some s) w1)
  = fst (simulate_asset_class_returns_jsu returns n y frequency (Some s) w2).
Proof.
  unfold simulate_asset_class_returns_jsu, bind, seed.
  destruct (np_random_seed s) as [e|g]; simpl; [reflexivity|].
  apply oblivious_for_each_asset. reflexivity.
Qed.

End MonadFacts.

(** C1. Two calls of the orchestrator on the same table with the same
    integer seed return the same table (or raise the same exception),
    whatever state the global generator was in before each call; without a
    seed the result depends on that state, so two runs can differ. *)
Theorem seeded_runs_are_reproducible :
  (forall (L : Library) returns n y frequency s (w1 w2 : World),
      fst (simulate_asset_class_returns_jsu returns n y frequency (Some s) w1)
      = fst (simulate_asset_class_returns_jsu returns n y frequency (Some s) w2))
  /\
  (exists (L : Library) returns n y frequency (w1 w2 : World),
      fst (simulate_asset_class_returns_jsu returns n y frequency None w1)
      <> fst (simulate_asset_class_returns_jsu returns n y frequency None w2)).
Proof.
  split.
  - intros. apply seeded_run_ignores_ambient_state.
  - exists Mock.library, [("SPY", [0.01; 0.02]%float)], 1%Z, 1%Z, "M",
      (Mock.start 0), (Mock.start 1).
    vm_compute. discriminate.
Qed.

Section CallLog.

Context {L : Library}.

Lemma rvs_sizes_snoc size log c :
  rvs_sizes size log ->
  match c with CallRvs _ n => n = size | CallFit _ => True end ->
  rvs_sizes size (log ++ [c]).
Proof.
  intros Hlog Hc. apply Forall_app. split; [assumption|].
  constructor; [assumption | constructor].
Qed.

Lemma run_simulations_sizes (k : nat) p y frequency :
  forall acc w, rvs_sizes (y * 12) (calls w) ->
    rvs_sizes (y * 12) (calls (snd (run_simulations k p y frequency acc w))).
Proof.
  induction k as [|k IH]; intros acc w Hw; simpl; [assumption|].
  unfold bind at 1. unfold rvs.
  destruct (johnsonsu_rvs p (y * 12) (rng w)) as [[e|path] g]; simpl.
  - apply rvs_sizes_snoc; [assumption | reflexivity].
  - unfold bind at 1. unfold lift.
    destruct (annualize_returns path frequency) as [e|rate]; simpl.
    + apply rvs_sizes_snoc; [assumption | reflexivity].
    + apply IH. simpl. apply rvs_sizes_snoc; [assumption | reflexivity].
Qed.

Lemma simulate_asset_sizes returns n y frequency expected asset w :
  rvs_sizes (y * 12) (calls w) ->
  rvs_sizes (y * 12)
    (calls (snd (simulate_asset returns n y frequency expected asset w))).
Proof.
  intros Hw. unfold simulate_asset, bind, lift, fit, ret.
  destruct (getitem returns asset) as [e|column]; simpl; [assumption|].
  assert (Hfit : rvs_sizes (y * 12) (calls (record (CallFit (Float64.dropna column)) w)))
    by (apply rvs_sizes_snoc; [assumption | exact I]).
  destruct (johnsonsu_fit (Float64.dropna column)) as [e|p]; simpl; [assumption|].
  pose proof (run_simulations_sizes (Z.to_nat n) p y frequency [] _ Hfit) as Hsim.
  destruct (run_simulations (Z.to_nat n) p y frequency []
              (record (CallFit (Float64.dropna column)) w)) as [[e|rates] w'];
    simpl in *; assumption.
Qed.

Lemma for_each_asset_sizes assets returns n y frequency :
  forall expected w, rvs_sizes (y * 12) (calls w) ->
    rvs_sizes (y * 12)
      (calls (snd (for_each_asset assets returns n y frequency expected w))).
Proof.
  induction assets as [|asset rest IH]; intros expected w Hw; simpl; [assumption|].
  unfold bind.
  pose proof (simulate_asset_sizes returns n y frequency expected asset w Hw) as H1.
  destruct (simulate_asset returns n y frequency expected asset w) as [[e|ex'] w'];
    simpl in *; [assumption | apply IH; assumption].
Qed.

(** Whatever the frequency argument, every sampler call of a run asks for
    [num_years * 12] draws. *)
Lemma sampler_asked_for_twelve_per_year returns n y frequency random_seed g :
  rvs_sizes (y * 12)
    (calls (snd (simulate_asset_class_returns_jsu returns n y frequency random_seed
                   {| rng := g; calls := [] |}))).
Proof.
  unfold simulate_asset_class_returns_jsu, bind.
  destruct random_seed as [s|]; simpl.
  - unfold seed. destruct (np_random_seed s) as [e|g']; simpl.
    + constructor.
    + apply for_each_asset_sizes. constructor.
  - apply for_each_asset_sizes. constructor.
Qed.

End CallLog.

(** C2. Every path the orchestrator draws has [num_years * 12] periods,
    whatever the frequency: for the daily frequency, whose periods per year
    are 252, a one-year run still asks the sampler for 12 draws. *)
Theorem path_length_ignores_frequency :
  (forall (L : Library) returns n y frequency random_seed g,
      rvs_sizes (y * 12)
        (calls (snd (simulate_asset_class_returns_jsu returns n y frequency random_seed
                       {| rng := g; calls := [] |}))))
  /\
  (let run := simulate_asset_class_returns_jsu (L := Mock.library)
                [("SPY", [0.01; 0.02]%float)] 1 1 "D" None (Mock.start 0) in
   calls (snd run)
   = [CallFit [0.01; 0.02]%float; CallRvs (mkParams 0 1 0 1) 12]
   /\ periods_per_year "D" = Some 252%Z
   /\ (1 * 252 <> 12)%Z).
Proof.
  split.
  - intros. apply sampler_asked_for_twelve_per_year.
  - vm_compute. repeat split; discriminate.
Qed.

(** C3, as the design document states it, fails: with the unsupported
    frequency ['W'] the error is raised only after the first asset class
    has been fitted and its first path drawn. *)
Lemma unsupported_frequency_found_after_fit_and_draw :
  let run := simulate_asset_class_returns_jsu (L := Mock.library)
               [("SPY", [0.01; 0.02]%float)] 1 1 "W" None (Mock.start 0) in
  fst run = inl unsupported_frequency
  /\ calls (snd run)
     = [CallFit [0.01; 0.02]%float; CallRvs (mkParams 0 1 0 1) 12].
Proof. vm_compute. split; reflexivity. Qed.

(** C3, amended. For an unsupported frequency the orchestrator raises the
    annualizer's [ValueError] at the first annualization: when the table
    has a first column (under a label no other column carries), at least
    one simulation is asked for, and seeding, the first fit and the first
    draw succeed, the error is raised after exactly one fit call and one
    sampler call, and no table is returned. *)
Theorem unsupported_frequency_raised_at_first_annualization
    (L : Library) asset column rest n y frequency random_seed
    (w : World) g p path g' :
  ~ In asset (columns rest) ->
  periods_per_year frequency = None ->
  (0 < n)%Z ->
  generator_after random_seed w = inr g ->
  johnsonsu_fit (Float64.dropna column) = inr p ->
  johnsonsu_rvs p (y * 12) g = (inr path, g') ->
  simulate_asset_class_returns_jsu ((asset, column) :: rest) n y frequency random_seed w
  = (inl unsupported_frequency,
     {| rng := g';
        calls := calls w ++ [CallFit (Float64.dropna column); CallRvs p (y * 12)] |}).
Proof.
  intros _ Hfreq Hn Hseed Hfit Hrvs.
  assert (Hloop : forall expected log,
    for_each_asset (columns ((asset, column) :: rest)) ((asset, column) :: rest)
      n y frequency expected {| rng := g; calls := log |}
    = (inl unsupported_frequency,
       {| rng := g';
          calls := log ++ [CallFit (Float64.dropna column); CallRvs p (y * 12)] |})).
  { intros expected log. simpl. unfold bind at 1. unfold simulate_asset.
    unfold bind at 1. unfold lift at 1. simpl. rewrite String.eqb_refl.
    unfold bind at 1. unfold fit, record. simpl. rewrite Hfit.
    destruct (Z.to_nat n) as [|k] eqn:Hk; [lia|]. simpl.
    unfold bind at 1. unfold bind at 1. unfold rvs. simpl. rewrite Hrvs.
    unfold bind at 1. unfold lift, annualize_returns. rewrite Hfreq. simpl.
    rewrite <- app_assoc. reflexivity. }
  unfold simulate_asset_class_returns_jsu. unfold bind at 1.
  destruct random_seed as [s|]; simpl in Hseed.
  - unfold seed. rewrite Hseed. simpl. apply Hloop.
  - injection Hseed as <-. unfold ret. simpl. destruct w as [g0 log]. apply Hloop.
Qed.

Lemma unsupported_frequency_raised_at_first_annualization_witness :
  simulate_asset_class_returns_jsu (L := Mock.library)
    [("SPY", [0.01; 0.02]%float); ("IWM", [0.03; 0.04]%float)] 2 1 "W" (Some 7%Z)
    (Mock.start 0)
  = (inl unsupported_frequency,
     @mkWorld Mock.library 8%Z
       [CallFit [0.01; 0.02]%float; CallRvs (mkParams 0 1 0 1) 12]).
Proof.
  apply (unsupported_frequency_raised_at_first_annualization Mock.library
           "SPY" [0.01; 0.02]%float [("IWM", [0.03; 0.04]%float)] 2 1 "W" (Some 7%Z)
           (Mock.start 0) 7%Z (mkParams 0 1 0 1) (repeat 0.02%float 12) 8%Z);
    try (vm_compute; reflexivity).
  simpl. intros [H | []]. discriminate.
Defined.

(** C4, as the design document states it, fails: a column holding an
    infinite return makes the first fit raise, the exception leaves the
    orchestrator, no table is returned and the second asset class is never
    fitted. *)
Lemma fit_failure_returns_no_partial_table :
  let run := simulate_asset_class_returns_jsu (L := Mock.library)
               [("SPY", [0.01; infinity]%float); ("IWM", [0.02; 0.03]%float)]
               1 1 "M" None (Mock.start 0) in
  fst run = inl (ValueError "The data contains non-finite values.")
  /\ calls (snd run) = [CallFit [0.01; infinity]%float].
Proof. vm_compute. split; reflexivity. Qed.

Section Annualizer.

Context {L : Library}.

(** Either sign of zero is the only float that compares equal to zero. *)
Lemma float_zero_cases (r : float) :
  PrimFloat.eqb r 0 = true -> r = 0%float \/ r = (-0)%float.
Proof.
  intros H. rewrite FloatAxioms.eqb_spec in H.
  rewrite <- (SF2Prim_Prim2SF r).
  destruct (Prim2SF r) as [[|]| [|] | | [|] m e]; vm_compute in H; try discriminate.
  - right. reflexivity.
  - left. reflexivity.
Qed.

Lemma growth_factor_of_zero (r : float) :
  PrimFloat.eqb r 0 = true -> growth_factor r = 1%float.
Proof.
  intros H. destruct (float_zero_cases r H) as [-> | ->]; reflexivity.
Qed.

Lemma prod_of_ones (xs : list float) :
  Forall (fun x => x = 1%float) xs -> Float64.prod xs = 1%float.
Proof.
  unfold Float64.prod. induction 1 as [|x xs -> _ IH]; simpl; [reflexivity|].
  exact IH.
Qed.

(** On a path none of whose growth factors is NaN, pandas' NaN-skipping
    product is the plain left-to-right product. *)
Lemma prod_without_nan (path : list float) :
  Forall (fun r => PrimFloat.is_nan (growth_factor r) = false) path ->
  Float64.prod (map growth_factor path)
  = fold_left (fun growth r => PrimFloat.mul growth (growth_factor r)) path 1%float.
Proof.
  intros Hnan. unfold Float64.prod.
  enough (H : forall acc,
    fold_left (fun acc x => PrimFloat.mul acc (if PrimFloat.is_nan x then 1%float else x))
      (map growth_factor path) acc
    = fold_left (fun growth r => PrimFloat.mul growth (growth_factor r)) path acc)
    by apply H.
  induction Hnan as [|r path Hr _ IH]; intros acc; simpl; [reflexivity|].
  rewrite Hr. apply IH.
Qed.

Lemma length_nonzero {A : Type} (xs : list A) :
  xs <> [] -> (Z.of_nat (List.length xs) =? 0)%Z = false.
Proof.
  intros H. destruct xs as [|x xs]; [contradiction|].
  apply Z.eqb_neq. simpl List.length. lia.
Qed.

(** What the annualizer computes on a non-empty path. *)
Lemma annualize_returns_nonempty path frequency ppy :
  path <> [] ->
  periods_per_year frequency = Some ppy ->
  annualize_returns path frequency
  = inr (Float64.round2
           (PrimFloat.mul
              (PrimFloat.sub
                 (float_pow (Float64.prod (map growth_factor path))
                    (PrimFloat.div (Float64.of_Z ppy)
                       (Float64.of_Z (Z.of_nat (List.length path)))))
                 1%float)
              100%float)).
Proof.
  intros Hne Hfreq. unfold annualize_returns. rewrite Hfreq.
  rewrite (length_nonzero path Hne). reflexivity.
Qed.

(** Every value the annualizer returns has been through [np.round(_, 2)]. *)
Lemma annualize_returns_rounded path frequency v :
  annualize_returns path frequency = inr v -> rounded2 v.
Proof.
  unfold annualize_returns.
  destruct (periods_per_year frequency) as [ppy|]; [|discriminate].
  destruct (Z.of_nat (List.length path) =? 0)%Z; [discriminate|].
  intros H. injection H as <-. eexists. reflexivity.
Qed.

End Annualizer.

(** C5, as the design document states it, fails: a monthly path of twelve
    periods whose first return is -1 (a total loss) is annualized to
    -100.0; no exception is raised. *)
Lemma total_loss_path_is_annualized :
  let path := ((-1) :: repeat 0 11)%float in
  existsb (fun r => PrimFloat.leb r (-1)) path = true
  /\ annualize_returns (L := Mock.library) path "M" = inr (-100)%float.
Proof. vm_compute. split; reflexivity. Qed.

(** C5, amended. For every path that contains a period return of -1 or
    less and every supported frequency, the annualizer raises nothing: it
    returns the float the compounding formula gives on that path, that is
    the (NaN-skipping) product of the growth factors, to the power
    periods-per-year over n, minus 1, times 100 and rounded to two
    decimals. *)
Theorem annualizer_accepts_total_loss (L : Library) path frequency ppy r :
  periods_per_year frequency = Some ppy ->
  In r path ->
  PrimFloat.leb r (-1) = true ->
  annualize_returns path frequency
  = inr (Float64.round2
           (PrimFloat.mul
              (PrimFloat.sub
                 (float_pow (Float64.prod (map growth_factor path))
                    (PrimFloat.div (Float64.of_Z ppy)
                       (Float64.of_Z (Z.of_nat (List.length path)))))
                 1%float)
              100%float)).
Proof.
  intros Hfreq Hin _.
  apply annualize_returns_nonempty; [|exact Hfreq].
  intros ->. contradiction.
Qed.

Lemma annualizer_accepts_total_loss_witness :
  annualize_returns (L := Mock.library) ((-1) :: repeat 0 11)%float "M"
  = inr (Float64.round2
           (PrimFloat.mul
              (PrimFloat.sub
                 (float_pow (Library := Mock.library)
                    (Float64.prod (map growth_factor ((-1) :: repeat 0 11)%float))
                    (PrimFloat.div (Float64.of_Z 12)
                       (Float64.of_Z (Z.of_nat (List.length ((-1) :: repeat 0 11)%float)))))
                 1%float)
              100%float)).
Proof.
  apply (annualizer_accepts_total_loss Mock.library ((-1) :: repeat 0 11)%float
           "M" 12%Z (-1)%float).
  - reflexivity.
  - left. reflexivity.
  - vm_compute. reflexivity.
Defined.

(** C6, as the design document states it, fails: on twelve monthly periods
    with returns 1, 0, ..., 0 the formula gives 1.0 (growth 2 to the power
    12/12, minus 1) and the annualizer returns 100.0. *)
Lemma annualizer_returns_a_percentage :
  let path := (1 :: repeat 0 11)%float in
  compounded_annualization (L := Mock.library) path 12 = 1%float
  /\ annualize_returns (L := Mock.library) path "M" = inr 100%float
  /\ annualize_returns (L := Mock.library) path "M"
     <> inr (compounded_annualization (L := Mock.library) path 12).
Proof. vm_compute. repeat split; try reflexivity. discriminate. Qed.

(** C6, amended. For every non-empty path none of whose growth factors
    (1 + period return) is NaN and every supported frequency, the
    annualizer returns the compounded annualization (the product of the
    growth factors to the power periods-per-year over n, minus 1) times
    100, rounded to two decimals. *)
Theorem annualizer_formula (L : Library) path frequency ppy :
  path <> [] ->
  periods_per_year frequency = Some ppy ->
  Forall (fun r => PrimFloat.is_nan (growth_factor r) = false) path ->
  annualize_returns path frequency
  = inr (Float64.round2 (PrimFloat.mul (compounded_annualization path ppy) 100%float)).
Proof.
  intros Hne Hfreq Hnan.
  rewrite (annualize_returns_nonempty path frequency ppy Hne Hfreq).
  unfold compounded_annualization. rewrite (prod_without_nan path Hnan). reflexivity.
Qed.

Lemma annualizer_formula_witness :
  annualize_returns (L := Mock.library) (repeat 0.01%float 12) "M"
  = inr (Float64.round2
           (PrimFloat.mul
              (compounded_annualization (L := Mock.library) (repeat 0.01%float 12) 12)
              100%float)).
Proof.
  apply (annualizer_formula Mock.library (repeat 0.01%float 12) "M" 12%Z).
  - simpl. discriminate.
  - reflexivity.
  - vm_compute. repeat constructor.
Defined.

(** C8. On a non-empty path of zero returns and a supported frequency the
    annualizer returns exactly 0.0, whatever the length of the path. The
    only fact used about the power function is that one to any power is
    one. *)
Theorem zero_path_annualizes_to_zero (L : Library) path frequency ppy :
  (forall y, float_pow 1%float y = 1%float) ->
  path <> [] ->
  Forall (fun r => PrimFloat.eqb r 0 = true) path ->
  periods_per_year frequency = Some ppy ->
  annualize_returns path frequency = inr 0%float.
Proof.
  intros Hpow Hne Hzero Hfreq.
  rewrite (annualize_returns_nonempty path frequency ppy Hne Hfreq).
  rewrite prod_of_ones.
  - rewrite Hpow. vm_compute. reflexivity.
  - apply Forall_map. eapply Forall_impl; [|exact Hzero].
    intros r Hr. apply growth_factor_of_zero. exact Hr.
Qed.

Lemma zero_path_annualizes_to_zero_witness :
  annualize_returns (L := Mock.library) [0; (-0); 0; 0; 0]%float "D" = inr 0%float.
Proof.
  apply (zero_path_annualizes_to_zero Mock.library [0; (-0); 0; 0; 0]%float "D" 252%Z).
  - intros y. reflexivity.
  - discriminate.
  - vm_compute. repeat constructor.
  - reflexivity.
Defined.

Section Aggregation.

Context {L : Library}.

Lemma run_simulations_rates (k : nat) p y frequency :
  forall acc (w : World) rates w',
    run_simulations k p y frequency acc w = (inr rates, w') ->
    exists new, rates = acc ++ new
                /\ List.length new = k
                /\ Forall (recorded_rate frequency) new.
Proof.
  induction k as [|k IH]; intros acc w rates w' Hrun; simpl in Hrun.
  - unfold ret in Hrun. injection Hrun as <- _.
    exists []. rewrite app_nil_r. repeat split. constructor.
  - unfold bind at 1 in Hrun. unfold rvs in Hrun.
    destruct (johnsonsu_rvs p (y * 12) (rng w)) as [[e|path] g]; [discriminate|].
    unfold bind at 1 in Hrun. unfold lift in Hrun.
    destruct (annualize_returns path frequency) as [e|rate] eqn:Hrate; [discriminate|].
    destruct (IH _ _ _ _ Hrun) as (new & -> & Hlen & Hall).
    exists (rate :: new). rewrite <- app_assoc. simpl. repeat split.
    + f_equal. exact Hlen.
    + constructor; [|exact Hall]. split.
      * exists path. exact Hrate.
      * eapply annualize_returns_rounded. exact Hrate.
Qed.

Lemma loc_set_keys frame asset v :
  In asset (map fst frame) -> map fst (loc_set frame asset v) = map fst frame.
Proof.
  intros Hin. unfold loc_set.
  assert (Hex : existsb (fun row => String.eqb (fst row) asset) frame = true).
  { apply existsb_exists. apply in_map_iff in Hin as (row & Hrow & Hin).
    exists row. split; [assumption|]. apply String.eqb_eq. assumption. }
  rewrite Hex. rewrite map_map. apply map_ext.
  intros row. destruct (String.eqb (fst row) asset); reflexivity.
Qed.

Lemma simulate_asset_keys returns n y frequency expected asset (w : World) out w' :
  In asset (map fst expected) ->
  simulate_asset returns n y frequency expected asset w = (inr out, w') ->
  map fst out = map fst expected.
Proof.
  intros Hin Hrun. unfold simulate_asset, bind, lift, fit, ret in Hrun.
  destruct (getitem returns asset) as [e|column]; [discriminate|].
  destruct (johnsonsu_fit (Float64.dropna column)) as [e|p]; [discriminate|].
  destruct (run_simulations (Z.to_nat n) p y frequency [] _) as [[e|rates] w1];
    [discriminate|].
  injection Hrun as <- _. apply loc_set_keys. assumption.
Qed.

Lemma for_each_asset_keys assets returns n y frequency :
  forall expected (w : World) out w',
    incl assets (map fst expected) ->
    for_each_asset assets returns n y frequency expected w = (inr out, w') ->
    map fst out = map fst expected.
Proof.
  induction assets as [|asset rest IH]; intros expected w out w' Hincl Hrun;
    simpl in Hrun.
  - unfold ret in Hrun. injection Hrun as <- _. reflexivity.
  - unfold bind at 1 in Hrun.
    destruct (simulate_asset returns n y frequency expected asset w)
      as [[e|expected'] w1] eqn:Hbody; [discriminate|].
    assert (Hkeys : map fst expected' = map fst expected).
    { eapply simulate_asset_keys; [|exact Hbody]. apply Hincl. left. reflexivity. }
    rewrite <- Hkeys. eapply IH; [|exact Hrun].
    rewrite Hkeys. intros a Ha. apply Hincl. right. exact Ha.
Qed.

Lemma empty_frame_keys labels : map fst (empty_frame labels) = labels.
Proof.
  unfold empty_frame. rewrite map_map. simpl. apply map_id.
Qed.

Lemma getitem_columns returns asset :
  In asset (columns returns) ->
  exists column, getitem returns asset = inr column /\ In (asset, column) returns.
Proof.
  induction returns as [|[label column] rest IH]; intros Hin; [contradiction|].
  simpl. destruct (String.eqb label asset) eqn:Heq.
  - apply String.eqb_eq in Heq as ->. exists column. split; [reflexivity | left; reflexivity].
  - destruct Hin as [Hhead | Htail].
    + simpl in Hhead. subst. rewrite String.eqb_refl in Heq. discriminate.
    + destruct (IH Htail) as (c & Hget & Hc). exists c. split; [assumption | right; assumption].
Qed.



End Aggregation.

(** C7, as the design document states it, fails: the annualizer itself
    rounds. On twelve monthly periods with returns 0.123456, 0, ..., 0 the
    unrounded percentage is 12.345600000000001 and the annualizer returns
    12.35. *)
Lemma annualizer_rounds_each_path :
  let path := (0.123456 :: repeat 0 11)%float in
  PrimFloat.mul (compounded_annualization (L := Mock.library) path 12) 100
  = 12.345600000000001%float
  /\ annualize_returns (L := Mock.library) path "M" = inr 12.35%float.
Proof. vm_compute. split; reflexivity. Qed.

(** C7, amended. Rounding to two decimals on the percentage scale happens
    twice: every per-path rate the simulation loop records is a value the
    annualizer returned, already rounded, and the entry written for the
    asset class is the mean of these [num_simulations] rounded rates,
    rounded again. *)
Theorem rounding_per_path_and_on_the_mean
    (L : Library) returns n y frequency expected asset (w : World) out :
  fst (simulate_asset returns n y frequency expected asset w) = inr out ->
  exists rates,
    List.length rates = Z.to_nat n
    /\ Forall (recorded_rate frequency) rates
    /\ out = loc_set expected asset (Float64.round2 (np_mean rates)).
Proof.
  intros Hrun. unfold simulate_asset in Hrun.
  unfold bind at 1 in Hrun. unfold lift in Hrun.
  destruct (getitem returns asset) as [e|column]; [discriminate|].
  unfold bind at 1 in Hrun. unfold fit in Hrun.
  destruct (johnsonsu_fit (Float64.dropna column)) as [e|p]; [discriminate|].
  unfold bind at 1 in Hrun.
  destruct (run_simulations (Z.to_nat n) p y frequency [] _) as [[e|rates] w1] eqn:Hsim;
    [discriminate|].
  unfold ret in Hrun. simpl in Hrun. injection Hrun as <-.
  destruct (run_simulations_rates _ _ _ _ _ _ _ _ Hsim) as (new & -> & Hlen & Hall).
  exists new. simpl. repeat split; assumption.
Qed.

Lemma rounding_per_path_and_on_the_mean_witness :
  exists rates,
    List.length rates = Z.to_nat 2
    /\ Forall (recorded_rate (L := Mock.library) "M") rates
    /\ [("SPY", PrimFloat.nan); ("IWM", 19.75%float)]
       = loc_set (empty_frame ["SPY"; "IWM"]) "IWM"
           (Float64.round2 (np_mean (Library := Mock.library) rates)).
Proof.
  apply (rounding_per_path_and_on_the_mean Mock.library
           [("SPY", [0.01; 0.02]%float); ("IWM", [0.02; 0.03]%float)] 2 1 "M"
           (empty_frame ["SPY"; "IWM"]) "IWM" (Mock.start 1)
           [("SPY", PrimFloat.nan); ("IWM", 19.75%float)]).
  vm_compute. reflexivity.
Defined.

(** C9. Whenever the orchestrator returns, the output table has one entry
    per input column, under the same labels and in the same order. *)
Theorem output_keys_are_input_columns
    (L : Library) returns n y frequency random_seed (w : World) out :
  fst (simulate_asset_class_returns_jsu returns n y frequency random_seed w) = inr out ->
  map fst out = columns returns.
Proof.
  intros Hrun. unfold simulate_asset_class_returns_jsu in Hrun.
  unfold bind at 1 in Hrun.
  destruct (match random_seed with Some s => seed s | None => ret tt end w)
    as [[e|u] w1]; [discriminate|].
  destruct (for_each_asset (columns returns) returns n y frequency
              (empty_frame (columns returns)) w1) as [r w2] eqn:Hloop.
  simpl in Hrun. subst r.
  transitivity (map fst (empty_frame (columns returns)));
    [|apply empty_frame_keys].
  eapply for_each_asset_keys; [|exact Hloop].
  rewrite empty_frame_keys. apply incl_refl.
Qed.

Lemma output_keys_are_input_columns_witness :
  map fst [("SPY", 6.3399999999999999%float); ("IWM", 34.700000000000003%float)]
  = columns [("SPY", [0.01; 0.02]%float); ("IWM", [0.02; 0.03]%float)].
Proof.
  apply (output_keys_are_input_columns Mock.library
           [("SPY", [0.01; 0.02]%float); ("IWM", [0.02; 0.03]%float)] 2 1 "M"
           (Some 5%Z) (Mock.start 0)
           [("SPY", 6.3399999999999999%float); ("IWM", 34.700000000000003%float)]).
  vm_compute. reflexivity.
Defined.




(** ** Further properties of the annualizer and the orchestrator *)

Section RunFacts.

Context {L : Library}.

Lemma periods_per_year_none frequency :
  periods_per_year frequency = None
  <-> frequency <> "M" /\ frequency <> "D" /\ frequency <> "Q".
Proof.
  unfold periods_per_year.
  destruct (String.eqb_spec frequency "M") as [->|HM]; [split; [discriminate | tauto]|].
  destruct (String.eqb_spec frequency "D") as [->|HD]; [split; [discriminate | tauto]|].
  destruct (String.eqb_spec frequency "Q") as [->|HQ]; [split; [discriminate | tauto]|].
  tauto.
Qed.

Lemma periods_per_year_some frequency ppy :
  periods_per_year frequency = Some ppy ->
  (frequency = "M" /\ ppy = 12%Z) \/ (frequency = "D" /\ ppy = 252%Z)
  \/ (frequency = "Q" /\ ppy = 4%Z).
Proof.
  unfold periods_per_year.
  destruct (String.eqb_spec frequency "M") as [->|HM]; [intros [= <-]; auto|].
  destruct (String.eqb_spec frequency "D") as [->|HD]; [intros [= <-]; auto|].
  destruct (String.eqb_spec frequency "Q") as [->|HQ]; [intros [= <-]; auto|].
  discriminate.
Qed.

Lemma annualize_returns_error path frequency e :
  annualize_returns path frequency = inl e ->
  e = unsupported_frequency \/ e = ZeroDivisionError.
Proof.
  unfold annualize_returns.
  destruct (periods_per_year frequency) as [ppy|]; [|intros [= <-]; auto].
  destruct (Z.of_nat (List.length path) =? 0)%Z; [intros [= <-]; auto | discriminate].
Qed.

Lemma dropna_without_nan column :
  Forall (fun x => PrimFloat.is_nan x = false) (Float64.dropna column).
Proof.
  apply Forall_forall. intros x Hx. unfold Float64.dropna in Hx.
  apply filter_In in Hx as [_ Hx]. apply negb_true_iff. exact Hx.
Qed.

(** One iteration of the simulation loop, one loop body and one step of
    the asset loop, as case analyses on the library calls they make. *)
Lemma run_simulations_step (k : nat) p y frequency acc (w : World) :
  run_simulations (S k) p y frequency acc w
  = match johnsonsu_rvs p (y * 12) (rng w) with
    | (inl e, g) => (inl e, {| rng := g; calls := calls w ++ [CallRvs p (y * 12)] |})
    | (inr path, g) =>
        match annualize_returns path frequency with
        | inl e => (inl e, {| rng := g; calls := calls w ++ [CallRvs p (y * 12)] |})
        | inr rate =>
            run_simulations k p y frequency (acc ++ [rate])
              {| rng := g; calls := calls w ++ [CallRvs p (y * 12)] |}
        end
    end.
Proof.
  simpl. unfold bind, rvs, lift.
  destruct (johnsonsu_rvs p (y * 12) (rng w)) as [[e|path] g]; [reflexivity|].
  destruct (annualize_returns path frequency); reflexivity.
Qed.

Lemma simulate_asset_step returns n y frequency expected asset (w : World) :
  simulate_asset returns n y frequency expected asset w
  = match getitem returns asset with
    | inl e => (inl e, w)
    | inr column =>
        match johnsonsu_fit (Float64.dropna column) with
        | inl e => (inl e, record (CallFit (Float64.dropna column)) w)
        | inr p =>
            match run_simulations (Z.to_nat n) p y frequency []
                    (record (CallFit (Float64.dropna column)) w) with
            | (inl e, w1) => (inl e, w1)
            | (inr rates, w1) =>
                (inr (loc_set expected asset (Float64.round2 (np_mean rates))), w1)
            end
        end
    end.
Proof.
  unfold simulate_asset, bind, lift, fit, ret.
  destruct (getitem returns asset) as [e|column]; [reflexivity|].
  destruct (johnsonsu_fit (Float64.dropna column)) as [e|p]; [reflexivity|].
  destruct (run_simulations (Z.to_nat n) p y frequency [] _) as [[e|rates] w1];
    reflexivity.
Qed.

Lemma for_each_asset_step asset rest returns n y frequency expected (w : World) :
  for_each_asset (asset :: rest) returns n y frequency expected w
  = match simulate_asset returns n y frequency expected asset w with
    | (inl e, w1) => (inl e, w1)
    | (inr expected', w1) => for_each_asset rest returns n y frequency expected' w1
    end.
Proof. reflexivity. Qed.

Lemma run_step returns n y frequency random_seed (w : World) :
  simulate_asset_class_returns_jsu returns n y frequency random_seed w
  = match generator_after random_seed w with
    | inl e => (inl e, w)
    | inr g =>
        for_each_asset (columns returns) returns n y frequency
          (empty_frame (columns returns)) {| rng := g; calls := calls w |}
    end.
Proof.
  unfold simulate_asset_class_returns_jsu, bind, generator_after.
  destruct random_seed as [s|].
  - unfold seed. destruct (np_random_seed s); reflexivity.
  - unfold ret, value. destruct w. reflexivity.
Qed.

(** The simulation loop only appends draws of [num_years * 12] variates
    to the log, at most one per iteration and exactly one per iteration
    when it completes. *)
Lemma run_simulations_log (k : nat) p y frequency :
  forall acc (w : World),
    exists j, (j <= k)%nat
      /\ calls (snd (run_simulations k p y frequency acc w))
          = calls w ++ repeat (CallRvs p (y * 12)) j
      /\ (forall rates, fst (run_simulations k p y frequency acc w) = inr rates -> j = k).
Proof.
  induction k as [|k IH]; intros acc w.
  - exists 0%nat. simpl. rewrite app_nil_r. auto.
  - rewrite run_simulations_step.
    destruct (johnsonsu_rvs p (y * 12) (rng w)) as [[e|path] g].
    + exists 1%nat. simpl. split; [lia | split; [reflexivity | discriminate]].
    + destruct (annualize_returns path frequency) as [e|rate].
      * exists 1%nat. simpl. split; [lia | split; [reflexivity | discriminate]].
      * destruct (IH (acc ++ [rate])
                    {| rng := g; calls := calls w ++ [CallRvs p (y * 12)] |})
          as (j & Hj & Hlog & Hdone).
        exists (S j). split; [|split].
        -- lia.
        -- rewrite Hlog. simpl. rewrite <- app_assoc. reflexivity.
        -- intros rates Hrates. f_equal. eapply Hdone. exact Hrates.
Qed.

Lemma simulate_asset_log returns n y frequency expected asset (w : World) :
  exists log,
    calls (snd (simulate_asset returns n y frequency expected asset w)) = calls w ++ log
    /\ Forall (issued_by_orchestrator y) log
    /\ (forall out, fst (simulate_asset returns n y frequency expected asset w) = inr out ->
         log = asset_calls returns n y asset).
Proof.
  rewrite simulate_asset_step. unfold asset_calls.
  destruct (getitem returns asset) as [e|column].
  - exists []. simpl. rewrite app_nil_r.
    split; [reflexivity | split; [constructor | discriminate]].
  - assert (Hfit : issued_by_orchestrator y (CallFit (Float64.dropna column)))
      by (left; exists column; reflexivity).
    destruct (johnsonsu_fit (Float64.dropna column)) as [e|p].
    + exists [CallFit (Float64.dropna column)]. simpl.
      split; [reflexivity | split; [|discriminate]].
      constructor; [exact Hfit | constructor].
    + destruct (run_simulations_log (Z.to_nat n) p y frequency []
                  (record (CallFit (Float64.dropna column)) w))
        as (j & Hj & Hlog & Hdone).
      exists (CallFit (Float64.dropna column) :: repeat (CallRvs p (y * 12)) j).
      assert (Hall : Forall (issued_by_orchestrator y)
                       (CallFit (Float64.dropna column) :: repeat (CallRvs p (y * 12)) j)).
      { constructor; [exact Hfit|]. apply Forall_forall. intros c Hc.
        apply repeat_spec in Hc. right. exists p. exact Hc. }
      destruct (run_simulations (Z.to_nat n) p y frequency []
                  (record (CallFit (Float64.dropna column)) w)) as [[e|rates] w1];
        simpl in *; rewrite Hlog, <- app_assoc; simpl.
      * split; [reflexivity | split; [exact Hall | discriminate]].
      * split; [reflexivity | split; [exact Hall|]]. intros out _.
        rewrite (Hdone rates eq_refl). reflexivity.
Qed.

Lemma for_each_asset_log assets returns n y frequency :
  forall expected (w : World),
    exists log,
      calls (snd (for_each_asset assets returns n y frequency expected w)) = calls w ++ log
      /\ Forall (issued_by_orchestrator y) log
      /\ (forall out, fst (for_each_asset assets returns n y frequency expected w) = inr out ->
           log = flat_map (asset_calls returns n y) assets).
Proof.
  induction assets as [|asset rest IH]; intros expected w.
  - exists []. simpl. rewrite app_nil_r.
    split; [reflexivity | split; [constructor | reflexivity]].
  - rewrite for_each_asset_step.
    destruct (simulate_asset_log returns n y frequency expected asset w)
      as (log1 & Hlog1 & Hall1 & Hdone1).
    destruct (simulate_asset returns n y frequency expected asset w)
      as [[e|expected'] w1]; simpl in *.
    + exists log1. split; [assumption | split; [assumption | discriminate]].
    + destruct (IH expected' w1) as (log2 & Hlog2 & Hall2 & Hdone2).
      exists (log1 ++ log2). split; [|split].
      * rewrite Hlog2, Hlog1, app_assoc. reflexivity.
      * apply Forall_app. split; assumption.
      * intros out Hout. rewrite (Hdone1 expected' eq_refl), (Hdone2 out Hout).
        reflexivity.
Qed.

Lemma run_log returns n y frequency random_seed (w : World) :
  exists log,
    calls (snd (simulate_asset_class_returns_jsu returns n y frequency random_seed w))
    = calls w ++ log
    /\ Forall (issued_by_orchestrator y) log
    /\ (forall out,
          fst (simulate_asset_class_returns_jsu returns n y frequency random_seed w)
          = inr out ->
          log = flat_map (asset_calls returns n y) (columns returns)).
Proof.
  rewrite run_step.
  destruct (generator_after random_seed w) as [e|g].
  - exists []. simpl. rewrite app_nil_r.
    split; [reflexivity | split; [constructor | discriminate]].
  - destruct (for_each_asset_log (columns returns) returns n y frequency
                (empty_frame (columns returns)) {| rng := g; calls := calls w |})
      as (log & Hlog & Hall & Hdone).
    exists log. split; [assumption | split; assumption].
Qed.

(** What the loop body writes for its asset class. *)
Lemma simulate_asset_value returns n y frequency expected asset (w : World) out w' :
  simulate_asset returns n y frequency expected asset w = (inr out, w') ->
  exists v, rounded_mean_of_rates n frequency v /\ out = loc_set expected asset v.
Proof.
  intros Hrun. rewrite simulate_asset_step in Hrun.
  destruct (getitem returns asset) as [e|column]; [discriminate|].
  destruct (johnsonsu_fit (Float64.dropna column)) as [e|p]; [discriminate|].
  destruct (run_simulations (Z.to_nat n) p y frequency [] _) as [[e|rates] w1] eqn:Hsim;
    [discriminate|].
  injection Hrun as <- _.
  destruct (run_simulations_rates _ _ _ _ _ _ _ _ Hsim) as (new & -> & Hlen & Hall).
  exists (Float64.round2 (np_mean new)). split; [|reflexivity].
  exists new. repeat split; assumption.
Qed.

Lemma loc_set_rows frame asset v row :
  In row (loc_set frame asset v) ->
  snd row = v \/ In row frame /\ fst row <> asset.
Proof.
  unfold loc_set.
  destruct (existsb (fun r => String.eqb (fst r) asset) frame) eqn:Hex.
  - intros Hin. apply in_map_iff in Hin as (r & Hr & Hin).
    destruct (String.eqb_spec (fst r) asset) as [Heq|Hne].
    + left. subst row. reflexivity.
    + right. subst row. auto.
  - intros Hin. apply in_app_or in Hin as [Hin | [<- | []]].
    + right. split; [assumption|]. intros Heq.
      assert (Htrue : existsb (fun r => String.eqb (fst r) asset) frame = true).
      { apply existsb_exists. exists row. split; [assumption|].
        apply String.eqb_eq. assumption. }
      congruence.
    + left. reflexivity.
Qed.

Lemma for_each_asset_values assets returns n y frequency :
  forall expected (w : World) out w',
    for_each_asset assets returns n y frequency expected w = (inr out, w') ->
    (forall row, In row expected ->
        In (fst row) assets \/ rounded_mean_of_rates n frequency (snd row)) ->
    forall row, In row out -> rounded_mean_of_rates n frequency (snd row).
Proof.
  induction assets as [|asset rest IH]; intros expected w out w' Hrun Hinv row Hin.
  - injection Hrun as <- _.
    destruct (Hinv row Hin) as [[] | HQ]. exact HQ.
  - rewrite for_each_asset_step in Hrun.
    destruct (simulate_asset returns n y frequency expected asset w)
      as [[e|expected'] w1] eqn:Hbody; [discriminate|].
    destruct (simulate_asset_value _ _ _ _ _ _ _ _ _ Hbody) as (v & Hv & ->).
    eapply IH; [exact Hrun | | exact Hin].
    intros r Hr. apply loc_set_rows in Hr as [Hr | [Hr Hne]].
    + right. rewrite Hr. exact Hv.
    + destruct (Hinv r Hr) as [[Heq | Hrest] | HQ];
        [congruence | left; assumption | right; assumption].
Qed.

(** An exception that leaves the simulation loop is the sampler's or the
    annualizer's. *)
Lemma run_simulations_error (k : nat) p y frequency :
  forall acc (w : World) e,
    fst (run_simulations k p y frequency acc w) = inl e ->
    raised_by_library_or_annualizer e.
Proof.
  induction k as [|k IH]; intros acc w e; [discriminate|].
  rewrite run_simulations_step.
  destruct (johnsonsu_rvs p (y * 12) (rng w)) as [[e1|path] g] eqn:Hrvs.
  - intros [= <-]. right. right. left. exists p, (y * 12)%Z, (rng w).
    rewrite Hrvs. reflexivity.
  - destruct (annualize_returns path frequency) as [e1|rate] eqn:Hann.
    + intros [= <-]. right. right. right. eapply annualize_returns_error. exact Hann.
    + apply IH.
Qed.

Lemma simulate_asset_error returns n y frequency expected asset (w : World) e :
  In asset (columns returns) ->
  fst (simulate_asset returns n y frequency expected asset w) = inl e ->
  raised_by_library_or_annualizer e.
Proof.
  intros Hin. rewrite simulate_asset_step.
  destruct (getitem_columns returns asset Hin) as (column & -> & _).
  destruct (johnsonsu_fit (Float64.dropna column)) as [e1|p] eqn:Hfit.
  - intros [= <-]. right. left. exists (Float64.dropna column). exact Hfit.
  - pose proof (run_simulations_error (Z.to_nat n) p y frequency []
                  (record (CallFit (Float64.dropna column)) w)) as Hsim.
    destruct (run_simulations (Z.to_nat n) p y frequency []
                (record (CallFit (Float64.dropna column)) w)) as [[e1|rates] w1];
      simpl in *; [|discriminate].
    intros [= <-]. apply Hsim. reflexivity.
Qed.

Lemma for_each_asset_error assets returns n y frequency :
  incl assets (columns returns) ->
  forall expected (w : World) e,
    fst (for_each_asset assets returns n y frequency expected w) = inl e ->
    raised_by_library_or_annualizer e.
Proof.
  induction assets as [|asset rest IH]; intros Hincl expected w e;
    [discriminate|].
  rewrite for_each_asset_step.
  pose proof (simulate_asset_error returns n y frequency expected asset w) as Hbody.
  destruct (simulate_asset returns n y frequency expected asset w)
    as [[e1|expected'] w1]; simpl in *.
  - intros [= <-]. apply Hbody; [apply Hincl; left|]; reflexivity.
  - apply IH. intros a Ha. apply Hincl. right. exact Ha.
Qed.

(** With an unsupported frequency and at least one simulation, the loop
    body of any asset class raises. *)
Lemma simulate_asset_unsupported returns n y frequency expected asset (w : World) :
  periods_per_year frequency = None ->
  (0 < n)%Z ->
  exists e, fst (simulate_asset returns n y frequency expected asset w) = inl e.
Proof.
  intros Hfreq Hn. rewrite simulate_asset_step.
  destruct (getitem returns asset) as [e|column]; [simpl; eauto|].
  destruct (johnsonsu_fit (Float64.dropna column)) as [e|p]; [simpl; eauto|].
  destruct (Z.to_nat n) as [|k] eqn:Hk; [lia|].
  rewrite run_simulations_step.
  destruct (johnsonsu_rvs p (y * 12) _) as [[e|path] g]; [simpl; eauto|].
  unfold annualize_returns. rewrite Hfreq. simpl. eauto.
Qed.

End RunFacts.

Section Abort.

Context {L : Library}.

(** The asset loop over a concatenation runs the first part, and the
    second part only if the first returned. *)
Lemma for_each_asset_app pre rest returns n y frequency :
  forall expected (w : World),
    for_each_asset (pre ++ rest) returns n y frequency expected w
    = match for_each_asset pre returns n y frequency expected w with
      | (inl e, w1) => (inl e, w1)
      | (inr expected', w1) => for_each_asset rest returns n y frequency expected' w1
      end.
Proof.
  induction pre as [|asset pre IH]; intros expected w; [reflexivity|].
  rewrite <- app_comm_cons. rewrite !for_each_asset_step.
  destruct (simulate_asset returns n y frequency expected asset w)
    as [[e|expected'] w1]; [reflexivity | apply IH].
Qed.

End Abort.

(** C4, amended. On a table with distinct column labels, when the asset
    classes before one have completed and that one fails, because its fit
    raises or because its simulation loop (the sampler or the annualizer)
    raises, the exception leaves the orchestrator: the run ends with that
    same exception in the state it was raised in, no table is returned and
    the asset classes after it are never processed. *)
Theorem failure_of_one_asset_aborts_run
    (L : Library) returns n y frequency random_seed (w : World) g
    pre asset post column expected w_k e w' :
  NoDup (columns returns) ->
  generator_after random_seed w = inr g ->
  columns returns = pre ++ asset :: post ->
  for_each_asset pre returns n y frequency (empty_frame (columns returns))
    {| rng := g; calls := calls w |}
  = (inr expected, w_k) ->
  getitem returns asset = inr column ->
  (johnsonsu_fit (Float64.dropna column) = inl e
   /\ w' = record (CallFit (Float64.dropna column)) w_k)
  \/ (exists p,
        johnsonsu_fit (Float64.dropna column) = inr p
        /\ run_simulations (Z.to_nat n) p y frequency []
             (record (CallFit (Float64.dropna column)) w_k)
           = (inl e, w')) ->
  simulate_asset_class_returns_jsu returns n y frequency random_seed w = (inl e, w').
Proof.
  intros _ Hseed Hcols Hpre Hget Hfail.
  rewrite run_step, Hseed, Hcols, for_each_asset_app.
  rewrite <- Hcols, Hpre, for_each_asset_step, simulate_asset_step, Hget.
  destruct Hfail as [[Hfit ->] | (p & Hfit & Hsim)]; rewrite Hfit.
  - reflexivity.
  - rewrite Hsim. reflexivity.
Qed.

Lemma failure_of_one_asset_aborts_run_witness :
  simulate_asset_class_returns_jsu (L := Mock.library)
    [("SPY", [0.01; 0.02]%float); ("IWM", [0.02; neg_infinity]%float);
     ("GOVT", [0; 0.01]%float)] 3 1 "M" (Some 1%Z) (Mock.start 0)
  = (inl (ValueError "The data contains non-finite values."),
     record (CallFit (Float64.dropna [0.02; neg_infinity]%float))
       (@mkWorld Mock.library 4%Z
          [CallFit [0.01; 0.02]%float;
           CallRvs (mkParams 0 1 0 1) 12; CallRvs (mkParams 0 1 0 1) 12;
           CallRvs (mkParams 0 1 0 1) 12])).
Proof.
  apply (failure_of_one_asset_aborts_run Mock.library
           [("SPY", [0.01; 0.02]%float); ("IWM", [0.02; neg_infinity]%float);
            ("GOVT", [0; 0.01]%float)] 3 1 "M" (Some 1%Z) (Mock.start 0) 1%Z
           ["SPY"] "IWM" ["GOVT"] [0.02; neg_infinity]%float
           [("SPY", 27.359999999999999%float); ("IWM", PrimFloat.nan);
            ("GOVT", PrimFloat.nan)]
           (@mkWorld Mock.library 4%Z
              [CallFit [0.01; 0.02]%float;
               CallRvs (mkParams 0 1 0 1) 12; CallRvs (mkParams 0 1 0 1) 12;
               CallRvs (mkParams 0 1 0 1) 12])).
  - repeat (constructor; [simpl; intuition discriminate|]). constructor.
  - reflexivity.
  - reflexivity.
  - reflexivity.
  - reflexivity.
  - left. split; reflexivity.
Defined.

(** One is the only float that compares equal to one. *)
Lemma float_eqb_one (x : float) : PrimFloat.eqb x 1 = true -> x = 1%float.
Proof.
  intros H. rewrite FloatAxioms.eqb_spec in H. apply Prim2SF_inj.
  change (Prim2SF 1) with (S754_finite false 4503599627370496 (-52)) in *.
  destruct (Prim2SF x) as [s|s| |s m e]; try (destruct s; discriminate).
  - discriminate.
  - unfold SFeqb, SFcompare in H. destruct s; [discriminate|].
    destruct (e ?= -52)%Z eqn:He; try discriminate.
    apply Z.compare_eq in He. subst e.
    destruct (Pos.compare_cont Eq m 4503599627370496) eqn:Hm; try discriminate.
    apply Pos.compare_eq in Hm. subst m. reflexivity.
Qed.

(** X2. A path that covers exactly one year (as many periods as the
    frequency has per year) is annualized with exponent 1.0: if [x ** 1.0]
    is [x], the annualizer returns the path's own compounded return, as a
    percentage rounded to two decimals. *)
Theorem one_year_path_keeps_compounded_return (L : Library) path frequency ppy :
  (forall x, float_pow x 1%float = x) ->
  periods_per_year frequency = Some ppy ->
  Z.of_nat (List.length path) = ppy ->
  annualize_returns path frequency
  = inr (Float64.round2
           (PrimFloat.mul
              (PrimFloat.sub (Float64.prod (map growth_factor path)) 1%float)
              100%float)).
Proof.
  intros Hpow Hfreq Hlen.
  assert (Hppy : ppy = 12%Z \/ ppy = 252%Z \/ ppy = 4%Z).
  { destruct (periods_per_year_some frequency ppy Hfreq) as [[_ H]|[[_ H]|[_ H]]]; auto. }
  rewrite (annualize_returns_nonempty path frequency ppy); [| |exact Hfreq].
  - rewrite Hlen.
    assert (Hone : PrimFloat.div (Float64.of_Z ppy) (Float64.of_Z ppy) = 1%float)
      by (destruct Hppy as [->|[->| ->]]; reflexivity).
    rewrite Hone, Hpow. reflexivity.
  - intros ->. simpl in Hlen. lia.
Qed.

Lemma one_year_path_keeps_compounded_return_witness :
  annualize_returns (L := Mock.library) [0.05; (-0.02); 0.01; 0.03]%float "Q"
  = inr (Float64.round2
           (PrimFloat.mul
              (PrimFloat.sub
                 (Float64.prod (map growth_factor [0.05; (-0.02); 0.01; 0.03]%float))
                 1%float)
              100%float)).
Proof.
  apply (one_year_path_keeps_compounded_return Mock.library
           [0.05; (-0.02); 0.01; 0.03]%float "Q" 4%Z).
  - intros x. unfold float_pow. simpl. unfold Mock.pow.
    destruct (PrimFloat.eqb x 1) eqn:Hx; [|reflexivity].
    symmetry. apply float_eqb_one. exact Hx.
  - reflexivity.
  - reflexivity.
Defined.

(** X3. A horizon of zero years asks the sampler for zero draws, and the
    empty path makes the annualizer divide by zero: with a supported
    frequency, at least one simulation, a first column whose label no
    other column carries, and seeding, the first fit and the (empty) first
    draw succeeding, the orchestrator raises [ZeroDivisionError] after one
    fit call and one sampler call of size zero. *)
Theorem zero_horizon_divides_by_zero
    (L : Library) asset column rest n frequency ppy random_seed (w : World) g p g' :
  ~ In asset (columns rest) ->
  periods_per_year frequency = Some ppy ->
  (0 < n)%Z ->
  generator_after random_seed w = inr g ->
  johnsonsu_fit (Float64.dropna column) = inr p ->
  johnsonsu_rvs p 0 g = (inr [], g') ->
  fst (simulate_asset_class_returns_jsu ((asset, column) :: rest) n 0 frequency
         random_seed w)
  = inl ZeroDivisionError
  /\ calls (snd (simulate_asset_class_returns_jsu ((asset, column) :: rest) n 0
                  frequency random_seed w))
     = calls w ++ [CallFit (Float64.dropna column); CallRvs p 0].
Proof.
  intros _ Hfreq Hn Hseed Hfit Hrvs.
  rewrite run_step, Hseed.
  change (columns ((asset, column) :: rest)) with (asset :: columns rest).
  rewrite for_each_asset_step, simulate_asset_step.
  simpl getitem. rewrite String.eqb_refl. unfold value. rewrite Hfit.
  destruct (Z.to_nat n) as [|k] eqn:Hk; [lia|].
  rewrite run_simulations_step. change (0 * 12)%Z with 0%Z.
  unfold record. simpl rng. rewrite Hrvs.
  unfold annualize_returns. rewrite Hfreq. simpl.
  rewrite <- app_assoc. split; reflexivity.
Qed.

Lemma zero_horizon_divides_by_zero_witness :
  fst (simulate_asset_class_returns_jsu (L := Mock.library)
         [("SPY", [0.01; 0.02]%float); ("IWM", [0.02; 0.03]%float)] 3 0 "D"
         (Some 11%Z) (Mock.start 0))
  = inl ZeroDivisionError
  /\ calls (snd (simulate_asset_class_returns_jsu (L := Mock.library)
                  [("SPY", [0.01; 0.02]%float); ("IWM", [0.02; 0.03]%float)] 3 0 "D"
                  (Some 11%Z) (Mock.start 0)))
     = calls (Mock.start 0)
       ++ [CallFit (Float64.dropna [0.01; 0.02]%float); CallRvs (mkParams 0 1 0 1) 0].
Proof.
  apply (zero_horizon_divides_by_zero Mock.library
           "SPY" [0.01; 0.02]%float [("IWM", [0.02; 0.03]%float)] 3 "D" 252%Z
           (Some 11%Z) (Mock.start 0) 11%Z (mkParams 0 1 0 1) 12%Z);
    try (vm_compute; reflexivity).
  simpl. intros [H | []]. discriminate.
Defined.

(** X4. The fitter is never handed a NaN: in every run, completed or not,
    each sample passed to [johnsonsu.fit] has had its NaN entries
    dropped. *)
Theorem fitter_never_sees_nan (L : Library) returns n y frequency random_seed g :
  fits_without_nan
    (calls (snd (simulate_asset_class_returns_jsu returns n y frequency random_seed
                   {| rng := g; calls := [] |}))).
Proof.
  destruct (run_log returns n y frequency random_seed {| rng := g; calls := [] |})
    as (log & Hlog & Hall & _).
  rewrite Hlog. simpl. unfold fits_without_nan.
  eapply Forall_impl; [|exact Hall].
  intros c [[column ->] | [p ->]]; [apply dropna_without_nan | exact I].
Qed.

(** X5. On a table with distinct column labels, a run that returns a
    table has fitted every asset class, and its scipy calls are, in column
    order, one fit per asset class (on its column without NaN) followed by
    exactly [num_simulations] draws of [num_years * 12] variates with the
    parameters that fit returned. *)
Theorem completed_run_log (L : Library) returns n y frequency random_seed (w : World) out :
  NoDup (columns returns) ->
  fst (simulate_asset_class_returns_jsu returns n y frequency random_seed w) = inr out ->
  calls (snd (simulate_asset_class_returns_jsu returns n y frequency random_seed w))
  = calls w ++ flat_map (asset_calls returns n y) (columns returns)
  /\ Forall (fun asset =>
               exists column p,
                 getitem returns asset = inr column
                 /\ johnsonsu_fit (Float64.dropna column) = inr p)
            (columns returns).
Proof.
  intros _ Hrun. split.
  - destruct (run_log returns n y frequency random_seed w) as (log & Hlog & _ & Hdone).
    rewrite Hlog, (Hdone out Hrun). reflexivity.
  - rewrite run_step in Hrun.
    destruct (generator_after random_seed w) as [e|g]; [discriminate|].
    revert Hrun. generalize (empty_frame (columns returns)).
    generalize {| rng := g; calls := calls w |}.
    induction (columns returns) as [|asset rest IH]; intros w0 expected Hrun;
      [constructor|].
    rewrite for_each_asset_step in Hrun.
    destruct (simulate_asset returns n y frequency expected asset w0)
      as [[e|expected'] w1] eqn:Hbody; [discriminate|].
    constructor; [|eapply IH; exact Hrun].
    rewrite simulate_asset_step in Hbody.
    destruct (getitem returns asset) as [e|column]; [discriminate|].
    destruct (johnsonsu_fit (Float64.dropna column)) as [e|p] eqn:Hfit; [discriminate|].
    exists column, p. split; [reflexivity | exact Hfit].
Qed.

Lemma completed_run_log_witness :
  calls (snd (simulate_asset_class_returns_jsu (L := Mock.library)
                [("SPY", [0.01; nan; 0.02]%float); ("IWM", [0.02; 0.03; 0.04]%float)] 2 1 "M"
                (Some 5%Z) (Mock.start 0)))
  = calls (Mock.start 0)
    ++ flat_map (asset_calls (L := Mock.library)
                   [("SPY", [0.01; nan; 0.02]%float); ("IWM", [0.02; 0.03; 0.04]%float)] 2 1)
         (columns [("SPY", [0.01; nan; 0.02]%float); ("IWM", [0.02; 0.03; 0.04]%float)])
  /\ Forall (fun asset =>
               exists column p,
                 getitem [("SPY", [0.01; nan; 0.02]%float); ("IWM", [0.02; 0.03; 0.04]%float)]
                   asset = inr column
                 /\ johnsonsu_fit (Library := Mock.library) (Float64.dropna column) = inr p)
            (columns [("SPY", [0.01; nan; 0.02]%float); ("IWM", [0.02; 0.03; 0.04]%float)]).
Proof.
  apply (completed_run_log Mock.library
           [("SPY", [0.01; nan; 0.02]%float); ("IWM", [0.02; 0.03; 0.04]%float)] 2 1 "M"
           (Some 5%Z) (Mock.start 0)
           [("SPY", 6.3399999999999999%float); ("IWM", 34.700000000000003%float)]).
  - repeat (constructor; [simpl; intuition discriminate|]). constructor.
  - vm_compute. reflexivity.
Defined.

(** X6. In a table the orchestrator returns, every entry is the mean of
    [num_simulations] annualizer values, rounded to two decimals: no entry
    keeps the NaN the frame was created with. *)
Theorem every_entry_is_a_rounded_mean
    (L : Library) returns n y frequency random_seed (w : World) out :
  fst (simulate_asset_class_returns_jsu returns n y frequency random_seed w) = inr out ->
  Forall (fun row => rounded_mean_of_rates n frequency (snd row)) out.
Proof.
  intros Hrun. rewrite run_step in Hrun.
  destruct (generator_after random_seed w) as [e|g]; [discriminate|].
  destruct (for_each_asset (columns returns) returns n y frequency
              (empty_frame (columns returns)) {| rng := g; calls := calls w |})
    as [r w1] eqn:Hloop.
  simpl in Hrun. subst r.
  apply Forall_forall. intros row Hrow.
  eapply for_each_asset_values; [exact Hloop | | exact Hrow].
  intros r Hr. left. unfold empty_frame in Hr.
  apply in_map_iff in Hr as (label & <- & Hlabel). exact Hlabel.
Qed.

Lemma every_entry_is_a_rounded_mean_witness :
  Forall (fun row => rounded_mean_of_rates (L := Mock.library) 2 "M" (snd row))
    [("SPY", 6.3399999999999999%float); ("IWM", 34.700000000000003%float)].
Proof.
  apply (every_entry_is_a_rounded_mean Mock.library
           [("SPY", [0.01; 0.02]%float); ("IWM", [0.02; 0.03]%float)] 2 1 "M"
           (Some 5%Z) (Mock.start 0)).
  vm_compute. reflexivity.
Defined.

(** X7. An exception that leaves the orchestrator was raised by numpy's
    seeding, by scipy's fit, by scipy's sampler, or is one of the
    annualizer's two: the orchestrator raises nothing of its own, and in
    particular no [KeyError] from looking a column up. *)
Theorem escaping_exceptions
    (L : Library) returns n y frequency random_seed (w : World) e :
  fst (simulate_asset_class_returns_jsu returns n y frequency random_seed w) = inl e ->
  raised_by_library_or_annualizer e.
Proof.
  rewrite run_step.
  destruct (generator_after random_seed w) as [e0|g] eqn:Hseed.
  - intros [= <-]. destruct random_seed as [s|]; simpl in Hseed; [|discriminate].
    left. exists s. exact Hseed.
  - apply for_each_asset_error. apply incl_refl.
Qed.

Lemma escaping_exceptions_witness :
  raised_by_library_or_annualizer (L := Mock.library)
    (ValueError "negative dimensions are not allowed").
Proof.
  apply (escaping_exceptions Mock.library
           [("SPY", [0.01; 0.02]%float)] 1 (-1) "M" None (Mock.start 0)).
  vm_compute. reflexivity.
Defined.

(** X8. With an unsupported frequency, a table that has at least one
    column and at least one simulation asked for, the orchestrator never
    returns a table: whatever the libraries do, the run ends in an
    exception. *)
Theorem unsupported_frequency_never_returns
    (L : Library) returns n y frequency random_seed (w : World) :
  periods_per_year frequency = None ->
  (0 < n)%Z ->
  returns <> [] ->
  exists e,
    fst (simulate_asset_class_returns_jsu returns n y frequency random_seed w) = inl e.
Proof.
  intros Hfreq Hn Hne. rewrite run_step.
  destruct (generator_after random_seed w) as [e|g]; [simpl; eauto|].
  destruct returns as [|[asset column] rest]; [contradiction|].
  change (columns ((asset, column) :: rest)) with (asset :: columns rest).
  rewrite for_each_asset_step.
  destruct (simulate_asset_unsupported ((asset, column) :: rest) n y frequency
              (empty_frame (asset :: columns rest)) asset
              {| rng := g; calls := calls w |} Hfreq Hn) as [e He].
  destruct (simulate_asset _ _ _ _ _ _ _) as [[e1|expected'] w1]; simpl in *;
    [eauto | discriminate].
Qed.

Lemma unsupported_frequency_never_returns_witness :
  exists e,
    fst (simulate_asset_class_returns_jsu (L := Mock.library)
           [("SPY", [0.01; infinity]%float)] 5 2 "monthly" (Some (-3)%Z) (Mock.start 0))
    = inl e.
Proof.
  apply (unsupported_frequency_never_returns Mock.library
           [("SPY", [0.01; infinity]%float)] 5 2 "monthly" (Some (-3)%Z) (Mock.start 0)).
  - reflexivity.
  - reflexivity.
  - discriminate.
Defined.

(** ** The grids of the plotting helpers *)

Section GridFacts.

Import Plots.

Lemma ceil_div4_bounds (n : nat) :
  (n <= ceil_div n 4 * 4 /\ ceil_div n 4 * 4 < n + 4)%nat.
Proof.
  unfold ceil_div.
  pose proof (Nat.div_mod_eq n 4) as Hdiv.
  pose proof (Nat.mod_upper_bound n 4 ltac:(discriminate)) as Hmod.
  destruct (Nat.eqb_spec (n mod 4) 0); lia.
Qed.

Lemma ceil_div4_rounds_up (n : nat) : ceil_div n 4 = ((n + 3) / 4)%nat.
Proof.
  pose proof (ceil_div4_bounds n) as [Hlo Hhi].
  pose proof (Nat.div_mod_eq (n + 3) 4) as Hdiv.
  pose proof (Nat.mod_upper_bound (n + 3) 4 ltac:(discriminate)) as Hmod.
  unfold ceil_div in *.
  pose proof (Nat.div_mod_eq n 4) as Hdiv'.
  pose proof (Nat.mod_upper_bound n 4 ltac:(discriminate)) as Hmod'.
  destruct (Nat.eqb_spec (n mod 4) 0); lia.
Qed.

(** The grid of the histograms has room for every asset class and no
    spare row. *)
Lemma histogram_grid_size (n : nat) :
  (0 < n)%nat ->
  (n <= ceil_div n 4 * Nat.min n 4 /\ ceil_div n 4 * Nat.min n 4 < n + 4)%nat.
Proof.
  intros Hn. pose proof (ceil_div4_bounds n) as [Hlo Hhi].
  destruct (Nat.le_gt_cases n 4) as [Hle | Hgt].
  - rewrite Nat.min_l by exact Hle.
    assert (Hone : ceil_div n 4 = 1%nat) by lia. rewrite Hone. lia.
  - rewrite Nat.min_r by lia. lia.
Qed.

Lemma draw_cells_in_bounds kind assets :
  forall i n_rows n_cols,
    (i + List.length assets <= n_rows * n_cols)%nat ->
    draw_cells kind assets i n_rows n_cols
    = inr (map (fun ia => Draw kind (snd ia) (Some (fst ia / n_cols, fst ia mod n_cols)))
             (combine (seq i (List.length assets)) assets)).
Proof.
  induction assets as [|asset rest IH]; intros i n_rows n_cols Hroom; [reflexivity|].
  simpl in Hroom. simpl draw_cells. unfold cell_at.
  assert (Hcols : (0 < n_cols)%nat) by (destruct n_cols; [lia | lia]).
  assert (Hrow : (i / n_cols < n_rows)%nat)
    by (apply Nat.Div0.div_lt_upper_bound; lia).
  assert (Hcol : (i mod n_cols < n_cols)%nat) by (apply Nat.mod_upper_bound; lia).
  apply Nat.ltb_lt in Hrow, Hcol. rewrite Hrow, Hcol. simpl.
  rewrite IH by lia. reflexivity.
Qed.

Lemma probplots_in_bounds assets :
  forall i len,
    (i + List.length assets <= len)%nat ->
    probplots assets i len
    = inr (map (fun ia => ProbPlot (snd ia) (fst ia))
             (combine (seq i (List.length assets)) assets)).
Proof.
  induction assets as [|asset rest IH]; intros i len Hroom; [reflexivity|].
  simpl in Hroom. simpl probplots. unfold axis_at.
  assert (Hi : (i <? len)%nat = true) by (apply Nat.ltb_lt; lia).
  rewrite Hi. rewrite IH by lia. reflexivity.
Qed.

Lemma flat_position_of_cells kind (assets : list string) n_cols :
  (0 < n_cols)%nat ->
  forall i,
    map (flat_position n_cols)
      (map (fun ia => Draw kind (snd ia) (Some (fst ia / n_cols, fst ia mod n_cols)))
         (combine (seq i (List.length assets)) assets))
    = map Some (seq i (List.length assets)).
Proof.
  intros Hcols. induction assets as [|asset rest IH]; intros i; [reflexivity|].
  simpl. rewrite IH. f_equal. f_equal.
  pose proof (Nat.div_mod_eq i n_cols). lia.
Qed.

Lemma flat_position_of_probplots (assets : list string) n_cols :
  forall i,
    map (flat_position n_cols)
      (map (fun ia => ProbPlot (snd ia) (fst ia))
         (combine (seq i (List.length assets)) assets))
    = map Some (seq i (List.length assets)).
Proof.
  induction assets as [|asset rest IH]; intros i; [reflexivity|].
  simpl. rewrite IH. reflexivity.
Qed.

Lemma histogram_grid_result (assets : list string) (bars : bool) :
  assets <> [] ->
  plot_return_histograms assets false bars
  = inr (Subplots (ceil_div (List.length assets) 4) (Nat.min (List.length assets) 4)
         :: cells_in_order (if bars then Histogram else Density) assets
              (Nat.min (List.length assets) 4)
            ++ map AxisOff
                 (seq (List.length assets)
                    (ceil_div (List.length assets) 4 * Nat.min (List.length assets) 4
                     - List.length assets))).
Proof.
  intros Hne.
  assert (Hn : (0 < List.length assets)%nat) by (destruct assets; [contradiction | simpl; lia]).
  destruct (histogram_grid_size (List.length assets) Hn) as [Hlo Hhi].
  unfold plot_return_histograms, subplots.
  set (n := List.length assets) in *.
  set (r := ceil_div n 4) in *.
  set (c := Nat.min n 4) in *.
  assert (Hc : (0 < c)%nat) by (unfold c; lia).
  replace ((r =? 0)%nat || (c =? 0)%nat) with false
    by (destruct r, c; simpl in *; try reflexivity; lia).
  rewrite draw_cells_in_bounds by (fold n; lia).
  unfold cells_in_order. fold n. reflexivity.
Qed.

Lemma qq_grid_result (assets : list string) :
  assets <> [] ->
  plot_qq_grid assets
  = inr (Subplots ((List.length assets + 3) / 4) 4
         :: probplots_in_order assets
            ++ map DelAxes
                 (seq (List.length assets)
                    ((List.length assets + 3) / 4 * 4 - List.length assets))).
Proof.
  intros Hne.
  assert (Hn : (0 < List.length assets)%nat) by (destruct assets; [contradiction | simpl; lia]).
  pose proof (ceil_div4_bounds (List.length assets)) as [Hlo Hhi].
  rewrite ceil_div4_rounds_up in Hlo, Hhi.
  unfold plot_qq_grid, subplots.
  set (n := List.length assets) in *.
  set (r := ((n + 3) / 4)%nat) in *.
  replace ((r =? 0)%nat || (4 =? 0)%nat) with false
    by (destruct r; simpl in *; try reflexivity; lia).
  rewrite probplots_in_bounds by (fold n; lia).
  unfold probplots_in_order. fold n. reflexivity.
Qed.

End GridFacts.

(** X9. For a table with at least one asset class, the grid mode of
    [plot_return_histograms] raises nothing: it asks for
    [ceil(n / 4)] rows and [min(n, 4)] columns, draws asset [i] in cell
    [divmod(i, n_cols)], and hides the cells from [n] on. The cells drawn
    and the cells hidden are the positions [0 .. n_rows * n_cols - 1] of
    the grid, each addressed once, and fewer than four are hidden. *)
Theorem histogram_grid_layout (assets : list string) (bars : bool) :
  assets <> [] ->
  exists body,
    Plots.plot_return_histograms assets false bars
    = inr (Plots.Subplots (Plots.ceil_div (List.length assets) 4)
             (Nat.min (List.length assets) 4) :: body)
    /\ body
       = Plots.cells_in_order (if bars then Plots.Histogram else Plots.Density) assets
           (Nat.min (List.length assets) 4)
         ++ map Plots.AxisOff
              (seq (List.length assets)
                 (Plots.ceil_div (List.length assets) 4 * Nat.min (List.length assets) 4
                  - List.length assets))
    /\ map (Plots.flat_position (Nat.min (List.length assets) 4)) body
       = map Some
           (seq 0 (Plots.ceil_div (List.length assets) 4 * Nat.min (List.length assets) 4))
    /\ (Plots.ceil_div (List.length assets) 4 * Nat.min (List.length assets) 4
        - List.length assets < 4)%nat.
Proof.
  intros Hne.
  assert (Hn : (0 < List.length assets)%nat) by (destruct assets; [contradiction | simpl; lia]).
  destruct (histogram_grid_size (List.length assets) Hn) as [Hlo Hhi].
  set (n := List.length assets) in *.
  set (r := Plots.ceil_div n 4) in *.
  set (c := Nat.min n 4) in *.
  assert (Hc : (0 < c)%nat) by (unfold c; lia).
  eexists. split; [|split; [reflexivity | split]].
  - rewrite (histogram_grid_result assets bars Hne). fold n. fold r. fold c. reflexivity.
  - rewrite map_app. unfold Plots.cells_in_order.
    rewrite (flat_position_of_cells _ assets c Hc 0). fold n.
    rewrite map_map. simpl.
    rewrite <- map_app. f_equal.
    replace (r * c)%nat with (n + (r * c - n))%nat at 2 by lia.
    rewrite seq_app. reflexivity.
  - lia.
Qed.

Lemma histogram_grid_layout_witness :
  exists body,
    Plots.plot_return_histograms ["SPY"; "IWM"; "GOVT"; "LQD"; "EFA"; "EEM"] false true
    = inr (Plots.Subplots (Plots.ceil_div 6 4) (Nat.min 6 4) :: body)
    /\ body
       = Plots.cells_in_order Plots.Histogram
           ["SPY"; "IWM"; "GOVT"; "LQD"; "EFA"; "EEM"] (Nat.min 6 4)
         ++ map Plots.AxisOff (seq 6 (Plots.ceil_div 6 4 * Nat.min 6 4 - 6))
    /\ map (Plots.flat_position (Nat.min 6 4)) body
       = map Some (seq 0 (Plots.ceil_div 6 4 * Nat.min 6 4))
    /\ (Plots.ceil_div 6 4 * Nat.min 6 4 - 6 < 4)%nat.
Proof.
  apply (histogram_grid_layout ["SPY"; "IWM"; "GOVT"; "LQD"; "EFA"; "EEM"] true).
  discriminate.
Defined.

(** X10. For a table with at least one asset class, [plot_qq_grid] raises
    nothing: it asks for [(n + 3) // 4] rows of four axes, plots asset [i]
    on axis [i] of the flattened array, and deletes the axes from [n] on.
    The axes plotted on and the axes deleted are the positions
    [0 .. 4 * num_rows - 1], each addressed once, and fewer than four are
    deleted. *)
Theorem qq_grid_layout (assets : list string) :
  assets <> [] ->
  exists body,
    Plots.plot_qq_grid assets
    = inr (Plots.Subplots ((List.length assets + 3) / 4) 4 :: body)
    /\ body
       = Plots.probplots_in_order assets
         ++ map Plots.DelAxes
              (seq (List.length assets)
                 ((List.length assets + 3) / 4 * 4 - List.length assets))
    /\ map (Plots.flat_position 4) body
       = map Some (seq 0 ((List.length assets + 3) / 4 * 4))
    /\ ((List.length assets + 3) / 4 * 4 - List.length assets < 4)%nat.
Proof.
  intros Hne.
  assert (Hn : (0 < List.length assets)%nat) by (destruct assets; [contradiction | simpl; lia]).
  pose proof (ceil_div4_bounds (List.length assets)) as [Hlo Hhi].
  rewrite ceil_div4_rounds_up in Hlo, Hhi.
  set (n := List.length assets) in *.
  set (r := ((n + 3) / 4)%nat) in *.
  eexists. split; [|split; [reflexivity | split]].
  - rewrite (qq_grid_result assets Hne). fold n. fold r. reflexivity.
  - rewrite map_app. unfold Plots.probplots_in_order.
    rewrite (flat_position_of_probplots assets 4 0). fold n.
    rewrite map_map. simpl.
    rewrite <- map_app. f_equal.
    replace (r * 4)%nat with (n + (r * 4 - n))%nat at 2 by lia.
    rewrite seq_app. reflexivity.
  - lia.
Qed.

Lemma qq_grid_layout_witness :
  exists body,
    Plots.plot_qq_grid ["SPY"; "IWM"; "GOVT"; "LQD"; "EFA"]
    = inr (Plots.Subplots ((5 + 3) / 4) 4 :: body)
    /\ body
       = Plots.probplots_in_order ["SPY"; "IWM"; "GOVT"; "LQD"; "EFA"]
         ++ map Plots.DelAxes (seq 5 ((5 + 3) / 4 * 4 - 5))
    /\ map (Plots.flat_position 4) body = map Some (seq 0 ((5 + 3) / 4 * 4))
    /\ ((5 + 3) / 4 * 4 - 5 < 4)%nat.
Proof.
  apply (qq_grid_layout ["SPY"; "IWM"; "GOVT"; "LQD"; "EFA"]).
  discriminate.
Defined.


(** X12. The two helpers size their grids alike: whenever both build a
    grid for the same table, they ask for the same number of rows (the
    float ceiling of one is the integer round-up of the other), the QQ
    grid always has four columns and the histogram grid at most four. *)
Theorem grids_have_the_same_rows
    (assets : list string) (bars : bool) r c body r' c' body' :
  Plots.plot_return_histograms assets false bars = inr (Plots.Subplots r c :: body) ->
  Plots.plot_qq_grid assets = inr (Plots.Subplots r' c' :: body') ->
  r = r' /\ c' = 4%nat /\ (c <= c')%nat.
Proof.
  intros Hhist Hqq.
  assert (Hne : assets <> []) by (intros ->; discriminate).
  rewrite (histogram_grid_result assets bars Hne) in Hhist.
  rewrite (qq_grid_result assets Hne) in Hqq.
  injection Hhist as <- <- _. injection Hqq as <- <- _.
  rewrite ceil_div4_rounds_up. repeat split. lia.
Qed.

Lemma grids_have_the_same_rows_witness :
  (2 = 2 /\ 4 = 4 /\ 4 <= 4)%nat.
Proof.
  eapply (grids_have_the_same_rows ["SPY"; "IWM"; "GOVT"; "LQD"; "EFA"] false
            2 4 _ 2 4 _); vm_compute; reflexivity.
Defined.
